(** * FinanceAI research front end: a shallow embedding

    The research pages of the Next.js front end (web/app/research/page.tsx,
    web/app/research/[id]/page.tsx), the two components they mount
    (ResearchProgress, ReportViewer) and the shared type declarations
    (web/types/index.ts) are embedded as Rocq functions.  React state is
    threaded explicitly: an event handler is a function from the component
    state to the next state, a component body is a function from props and
    state to a view. *)

From Stdlib Require Import ZArith NArith Lia List Bool String Ascii.
From stdpp Require Import base option list gmap strings.
Import ListNotations.

Local Open Scope N_scope.

(** ** JavaScript strings

    A JavaScript string is a sequence of UTF-16 code units; [trim], [split],
    [startsWith] and the regular expressions of the source (none carries the
    [u] flag) all work on code units. *)
Module JS.

Definition jsstring := list N.

(** Entry of string literals: the bytes of a Rocq literal are read as UTF-8
    and re-encoded as UTF-16, so that [js "..."] denotes the code units the
    same literal has in the TypeScript source. *)
Definition cont (b : N) : N := N.land b 63.

Definition utf16_of_code_point (cp : N) : jsstring :=
  if cp <? 65536 then [cp]
  else let v := cp - 65536 in [55296 + N.shiftr v 10; 56320 + N.land v 1023].

Fixpoint utf16_of_utf8 (bs : list N) : jsstring :=
  match bs with
  | [] => []
  | b0 :: r0 =>
    if b0 <? 128 then b0 :: utf16_of_utf8 r0
    else match r0 with
    | [] => [65533]
    | b1 :: r1 =>
      if b0 <? 224 then
        (N.shiftl (N.land b0 31) 6 + cont b1) :: utf16_of_utf8 r1
      else match r1 with
      | [] => [65533]
      | b2 :: r2 =>
        if b0 <? 240 then
          (N.shiftl (N.land b0 15) 12 + N.shiftl (cont b1) 6 + cont b2)
            :: utf16_of_utf8 r2
        else match r2 with
        | [] => [65533]
        | b3 :: r3 =>
          utf16_of_code_point
            (N.shiftl (N.land b0 7) 18 + N.shiftl (cont b1) 12
             + N.shiftl (cont b2) 6 + cont b3)
            ++ utf16_of_utf8 r3
        end
      end
    end
  end.

Definition js (s : string) : jsstring :=
  utf16_of_utf8 (List.map N_of_ascii (list_ascii_of_string s)).

Definition jsstring_eqb (a b : jsstring) : bool := bool_decide (a = b).

(** ECMAScript WhiteSpace: TAB, VT, FF, SP, NBSP, ZWNBSP and category Zs. *)
Definition is_white_space (c : N) : bool :=
  (c =? 9) || (c =? 11) || (c =? 12) || (c =? 32) || (c =? 160)
  || (c =? 5760) || ((8192 <=? c) && (c <=? 8202))
  || (c =? 8239) || (c =? 8287) || (c =? 12288) || (c =? 65279).

(** ECMAScript LineTerminator: LF, CR, LS, PS. *)
Definition is_line_terminator (c : N) : bool :=
  (c =? 10) || (c =? 13) || (c =? 8232) || (c =? 8233).

(** What [String.prototype.trim] strips and what [\s] matches. *)
Definition is_space (c : N) : bool := is_white_space c || is_line_terminator c.

(** [\d] *)
Definition is_digit (c : N) : bool := (48 <=? c) && (c <=? 57).

Fixpoint trimStart (s : jsstring) : jsstring :=
  match s with
  | c :: s' => if is_space c then trimStart s' else s
  | [] => []
  end.

Definition trimEnd (s : jsstring) : jsstring := rev (trimStart (rev s)).

Definition trim (s : jsstring) : jsstring := trimEnd (trimStart s).

(** Truthiness of a string value: only the empty string is falsy. *)
Definition truthy (s : jsstring) : bool :=
  match s with [] => false | _ => true end.

(** Truthiness of an object reference: every object is truthy. *)
Definition truthy_object {A : Type} (o : A) : bool := true.

(** Truthiness of [string | null]. *)
Definition truthy_opt (o : option jsstring) : bool :=
  match o with Some s => truthy s | None => false end.

Fixpoint startsWith (s p : jsstring) : bool :=
  match p, s with
  | [], _ => true
  | _ :: _, [] => false
  | a :: p', c :: s' => (c =? a) && startsWith s' p'
  end.

(** [s.slice(n)] for a non-negative [n]. *)
Definition slice (n : nat) (s : jsstring) : jsstring := drop n s.

(** [s.split(sep)] for a separator of one code unit: never the empty list. *)
Fixpoint split (sep : N) (s : jsstring) : list jsstring :=
  match s with
  | [] => [[]]
  | c :: s' =>
    if c =? sep then [] :: split sep s'
    else match split sep s' with
         | cur :: rest => (c :: cur) :: rest
         | [] => [[c]]
         end
  end.

(** [parts.join(sep)] *)
Fixpoint join (sep : jsstring) (parts : list jsstring) : jsstring :=
  match parts with
  | [] => []
  | [p] => p
  | p :: rest => p ++ sep ++ join sep rest
  end.

(** [String(n)] for an integer. *)
Definition digit_char (d : N) : N := 48 + d.

Fixpoint digits_of (fuel : nat) (n : N) (acc : jsstring) : jsstring :=
  match fuel with
  | O => acc
  | S fuel' =>
    let acc' := digit_char (n mod 10) :: acc in
    if n / 10 =? 0 then acc' else digits_of fuel' (n / 10) acc'
  end.

Definition string_of_N (n : N) : jsstring := digits_of (S (N.to_nat (N.log2 n))) n [].

Definition string_of_Z (z : Z) : jsstring :=
  match z with
  | Z0 => [48]
  | Zpos p => string_of_N (Npos p)
  | Zneg p => 45 :: string_of_N (Npos p)
  end.

(** A JavaScript number as far as this program is concerned: an integer, or
    NaN.  ([parseInt] results stay far below 2^53 here.) *)
Inductive number := Num (z : Z) | NaN.

(** [parseInt(s)] without radix: leading white space is skipped, a sign is
    read, a [0x]/[0X] prefix selects radix 16, and the longest prefix of
    digits is converted; no digit at all gives NaN. *)
Definition digit_value (radix : N) (c : N) : option N :=
  let v :=
    if (48 <=? c) && (c <=? 57) then Some (c - 48)
    else if (97 <=? c) && (c <=? 122) then Some (c - 87)
    else if (65 <=? c) && (c <=? 90) then Some (c - 55)
    else None in
  match v with
  | Some d => if d <? radix then Some d else None
  | None => None
  end.

Fixpoint parse_digits (radix : N) (s : jsstring) (acc : option N) : option N :=
  match s with
  | [] => acc
  | c :: s' =>
    match digit_value radix c with
    | Some d =>
      parse_digits radix s' (Some (match acc with Some a => a * radix + d | None => d end))
    | None => acc
    end
  end.

Definition parseInt (s : jsstring) : number :=
  let s1 := trimStart s in
  let '(neg, s2) :=
    match s1 with
    | 45 :: r => (true, r)
    | 43 :: r => (false, r)
    | _ => (false, s1)
    end in
  let '(radix, s3) :=
    match s2 with
    | 48 :: 120 :: r => (16, r)
    | 48 :: 88 :: r => (16, r)
    | _ => (10, s2)
    end in
  match parse_digits radix s3 None with
  | Some n => Num (if neg : bool then - Z.of_N n else Z.of_N n)%Z
  | None => NaN
  end.

(** Values stored in the plain objects the pages build. *)
Inductive value :=
| VStr (s : jsstring)
| VNum (n : number)
| VArr (items : list jsstring).

End JS.

Import JS.

(** ** web/types/index.ts: the pipeline research types *)
Module Types.

Inductive ResearchStatus := pending | running | completed | failed | cancelled.

(** The string a status is at run time. *)
Definition status_string (s : ResearchStatus) : string :=
  match s with
  | pending => "pending"
  | running => "running"
  | completed => "completed"
  | failed => "failed"
  | cancelled => "cancelled"
  end.

Definition status_eqb (a b : ResearchStatus) : bool :=
  match a, b with
  | pending, pending | running, running | completed, completed
  | failed, failed | cancelled, cancelled => true
  | _, _ => false
  end.

Record ResearchProgress := {
  event : jsstring;
  stage : jsstring;
  details : list (string * value)
}.

Record Report := {
  report_content : jsstring;
  executive_summary : jsstring;
  main_topic : jsstring;
  research_objective : jsstring;
  generated_at : jsstring
}.

Record Statistics := {
  total_topics : Z;
  completed_topics : Z;
  failed_topics : Z;
  total_tool_calls : Z
}.

Record ResearchResult := {
  report : option Report;
  statistics : option Statistics
}.

Record ResearchStatusResponse := {
  research_id : jsstring;
  status : ResearchStatus;
  topic : jsstring;
  created_at : jsstring;
  started_at : option jsstring;
  completed_at : option jsstring;
  current_stage : option jsstring;
  progress : option ResearchProgress;
  error : option jsstring;
  result : option ResearchResult
}.

(** The list item and the start response repeat field names of
    [ResearchStatusResponse]; they carry a prefix here. *)
Record ResearchListItem := {
  item_id : jsstring;
  item_topic : jsstring;
  item_status : ResearchStatus;
  item_created_at : jsstring;
  item_completed_at : option jsstring
}.

Record PipelineResearchResponse := {
  response_id : jsstring;
  response_topic : jsstring;
  response_status : ResearchStatus;
  response_message : jsstring;
  response_created_at : jsstring
}.

(** [WSEvent]: the union of the six event interfaces. *)
Inductive WSEvent :=
| WSConnectedEvent (research_id : jsstring)
| WSCurrentStateEvent (data : ResearchStatusResponse)
| WSUpdateEvent (data : ResearchStatusResponse)
| WSHeartbeatEvent
| WSFinalEvent (status : ResearchStatus) (result : option ResearchResult)
               (error : option jsstring)
| WSErrorEvent (message : jsstring).

(** The discriminant field [type] of an event. *)
Definition type (e : WSEvent) : string :=
  match e with
  | WSConnectedEvent _ => "connected"
  | WSCurrentStateEvent _ => "current_state"
  | WSUpdateEvent _ => "update"
  | WSHeartbeatEvent => "heartbeat"
  | WSFinalEvent _ _ _ => "final"
  | WSErrorEvent _ => "error"
  end.

(** The six values of the discriminant. *)
Definition event_types : list string :=
  ["connected"; "current_state"; "update"; "heartbeat"; "final"; "error"].

End Types.

(** ** web/components/ResearchProgress.tsx *)
Module ResearchProgress.
Import Types.

(** [config] of [StatusBadge]: an object literal keyed by status string;
    only the labels are kept, the class names are styling. *)
Definition config : gmap string jsstring :=
  <["pending" := js "대기중"]>
  (<["running" := js "진행중"]>
  (<["completed" := js "완료"]>
  (<["failed" := js "실패"]>
  (<["cancelled" := js "취소됨"]> ∅)))).

(** [StatusBadge]: [config[status]] is [undefined] for a missing key, and
    destructuring it would throw; [None] stands for that. *)
Definition StatusBadge (status : ResearchStatus) : option jsstring :=
  config !! status_string status.

(** What the component renders, as far as the properties below read it: the badge in
    the header and the error message block below the stage list
    ([{error && status === 'failed' && (...)}], whose only dynamic text is
    [{error}]).  The stage list in between is not modelled. *)
Record View := {
  badge : option jsstring;
  errorMessage : option jsstring
}.

Definition render (status : ResearchStatus) (currentStage : option jsstring)
    (progress : option Types.ResearchProgress) (error : option jsstring) : View :=
  {| badge := StatusBadge status;
     errorMessage :=
       if truthy_opt error && status_eqb status failed then error else None |}.

End ResearchProgress.

(** ** web/components/ReportViewer.tsx *)
Module ReportViewer.
Import Types.

(** The React elements [MarkdownRenderer] pushes, each with its [key]
    (the index of the line that produced it).  Inline markdown ends up as the
    [innerHTML] of a span, kept here as the HTML text. *)
Inductive Element :=
| pre (key : nat) (code : jsstring)
| h1 (key : nat) (text : jsstring)
| h2 (key : nat) (text : jsstring)
| h3 (key : nat) (text : jsstring)
| li (key : nat) (html : jsstring)
| li_decimal (key : nat) (html : jsstring)
| br (key : nat)
| p (key : nat) (html : jsstring).

(** *** [text.replace(/D(.+?)D/g, left + '$1' + right)]

    [lazy_until d s] is the lazy part once one character is taken: the
    shortest run without line terminator that is followed by [d]. *)
Fixpoint lazy_until (d s : jsstring) : option (jsstring * jsstring) :=
  if startsWith s d then Some ([], drop (length d) s)
  else match s with
       | c :: s' =>
         if is_line_terminator c then None
         else match lazy_until d s' with
              | Some (g, rest) => Some (c :: g, rest)
              | None => None
              end
       | [] => None
       end.

(** A match of [D(.+?)D] anchored at the head of [s]: the group and what
    follows the match. *)
Definition match_delimited (d s : jsstring) : option (jsstring * jsstring) :=
  if startsWith s d then
    match drop (length d) s with
    | c :: s' =>
      if is_line_terminator c then None
      else match lazy_until d s' with
           | Some (g, rest) => Some (c :: g, rest)
           | None => None
           end
    | [] => None
    end
  else None.

(** The global replace scans left to right and resumes after each match;
    a match is never empty, so [S (length s)] steps are enough. *)
Fixpoint replace_from (fuel : nat) (d left right s : jsstring) : jsstring :=
  match fuel with
  | O => s
  | S fuel' =>
    match match_delimited d s with
    | Some (g, rest) => left ++ g ++ right ++ replace_from fuel' d left right rest
    | None =>
      match s with
      | c :: s' => c :: replace_from fuel' d left right s'
      | [] => []
      end
    end
  end.

Definition replace_delimited (d left right s : jsstring) : jsstring :=
  replace_from (S (length s)) d left right s.

Definition renderInlineMarkdown (text : jsstring) : jsstring :=
  (* Bold *)
  let text := replace_delimited (js "**") (js "<strong>") (js "</strong>") text in
  (* Italic *)
  let text := replace_delimited (js "*") (js "<em>") (js "</em>") text in
  (* Code *)
  let text :=
    replace_delimited (js "`")
      (js "<code class=" ++ [34] ++ js "bg-gray-100 dark:bg-gray-900 px-1 rounded"
       ++ [34] ++ js ">")
      (js "</code>") text in
  text.

(** *** [line.match(/^(\d+)\.\s(.+)/)]: the second group of the match. *)
Fixpoint skip_digits (s : jsstring) : jsstring :=
  match s with
  | c :: s' => if is_digit c then skip_digits s' else s
  | [] => []
  end.

Fixpoint greedy_dots (s : jsstring) : jsstring :=
  match s with
  | c :: s' => if is_line_terminator c then [] else c :: greedy_dots s'
  | [] => []
  end.

Definition numberedMatch (line : jsstring) : option jsstring :=
  match line with
  | c :: _ =>
    if is_digit c then
      match skip_digits line with
      | 46 :: w :: rest =>
        if is_space w then
          match greedy_dots rest with
          | [] => None
          | g => Some g
          end
        else None
      | _ => None
      end
    else None
  | [] => None
  end.

(** *** [MarkdownRenderer]: the mutable locals of the function body. *)
Record Scan := {
  elements : list Element;
  inCodeBlock : bool;
  codeContent : list jsstring;
  codeLanguage : jsstring
}.

Definition fence : jsstring := js "```".

Definition push (e : Element) (st : Scan) : Scan :=
  {| elements := elements st ++ [e];
     inCodeBlock := inCodeBlock st;
     codeContent := codeContent st;
     codeLanguage := codeLanguage st |}.

(** The callback of [lines.forEach((line, index) => ...)]. *)
Definition callback (st : Scan) (line : jsstring) (index : nat) : Scan :=
  (* Code block handling *)
  if startsWith line fence then
    if inCodeBlock st then
      {| elements := elements st ++ [pre index (join [10] (codeContent st))];
         inCodeBlock := false;
         codeContent := [];
         codeLanguage := codeLanguage st |}
    else
      {| elements := elements st;
         inCodeBlock := true;
         codeContent := codeContent st;
         codeLanguage := slice 3 line |}
  else if inCodeBlock st then
    {| elements := elements st;
       inCodeBlock := true;
       codeContent := codeContent st ++ [line];
       codeLanguage := codeLanguage st |}
  (* Headers *)
  else if startsWith line (js "# ") then push (h1 index (slice 2 line)) st
  else if startsWith line (js "## ") then push (h2 index (slice 3 line)) st
  else if startsWith line (js "### ") then push (h3 index (slice 4 line)) st
  (* List items *)
  else if startsWith line (js "- ") || startsWith line (js "* ") then
    push (li index (renderInlineMarkdown (slice 2 line))) st
  else
    (* Numbered list *)
    match numberedMatch line with
    | Some g => push (li_decimal index (renderInlineMarkdown g)) st
    | None =>
      (* Empty line *)
      if jsstring_eqb (trim line) [] then push (br index) st
      (* Regular paragraph *)
      else push (p index (renderInlineMarkdown line)) st
    end.

Fixpoint forEach (lines : list jsstring) (index : nat) (st : Scan) : Scan :=
  match lines with
  | [] => st
  | line :: rest => forEach rest (S index) (callback st line index)
  end.

Definition initial : Scan :=
  {| elements := []; inCodeBlock := false; codeContent := []; codeLanguage := [] |}.

Definition MarkdownRenderer (content : jsstring) : list Element :=
  let lines := split 10 content in
  elements (forEach lines 0 initial).

(** Outside a code block nothing is pending in [codeContent]. *)
Definition settled (st : Scan) : Prop :=
  inCodeBlock st = false -> codeContent st = [].

(** [ReportViewer]: the placeholder when the result carries no report,
    otherwise the report with its rendered content. *)
Inductive View :=
| NoReport (message : jsstring)
| ShowReport (main_topic : jsstring) (executive_summary : jsstring)
             (statistics : option Statistics) (content : list Element).

Definition render (result : ResearchResult) : View :=
  match report result with
  | None => NoReport (js "리포트가 아직 생성되지 않았습니다")
  | Some r =>
    ShowReport (main_topic r) (executive_summary r) (statistics result)
               (MarkdownRenderer (report_content r))
  end.

End ReportViewer.

(** ** web/app/research/[id]/page.tsx *)
Module DetailPage.
Import Types.

(** [WebSocket.readyState] *)
Inductive ReadyState := CONNECTING | OPEN | CLOSING | CLOSED.

Inductive LogEntry :=
| log (message : jsstring) (arg : option jsstring)
| log_error (message : jsstring).

(** The four [useState] cells of the page, the socket the effect created
    (kept in [wsRef] and in the handlers' closure) and the console. *)
Record State := {
  research : option ResearchStatusResponse;
  loading : bool;
  error : option jsstring;
  wsConnected : bool;
  readyState : ReadyState;
  console : list LogEntry
}.

Definition setResearch (f : option ResearchStatusResponse -> option ResearchStatusResponse)
    (st : State) : State :=
  {| research := f (research st); loading := loading st; error := error st;
     wsConnected := wsConnected st; readyState := readyState st;
     console := console st |}.

Definition setLoading (b : bool) (st : State) : State :=
  {| research := research st; loading := b; error := error st;
     wsConnected := wsConnected st; readyState := readyState st;
     console := console st |}.

Definition setError (e : option jsstring) (st : State) : State :=
  {| research := research st; loading := loading st; error := e;
     wsConnected := wsConnected st; readyState := readyState st;
     console := console st |}.

Definition setWsConnected (b : bool) (st : State) : State :=
  {| research := research st; loading := loading st; error := error st;
     wsConnected := b; readyState := readyState st; console := console st |}.

Definition console_log (e : LogEntry) (st : State) : State :=
  {| research := research st; loading := loading st; error := error st;
     wsConnected := wsConnected st; readyState := readyState st;
     console := console st ++ [e] |}.

(** [ws.close()]: an open or connecting socket starts the closing
    handshake, a closing or closed one is left as it is. *)
Definition ws_close (st : State) : State :=
  {| research := research st; loading := loading st; error := error st;
     wsConnected := wsConnected st;
     readyState := match readyState st with
                   | CONNECTING | OPEN => CLOSING
                   | r => r
                   end;
     console := console st |}.

(** [{ ...prev, status: data.status, result: data.result, error: data.error }] *)
Definition with_final (prev : ResearchStatusResponse) (s : ResearchStatus)
    (r : option ResearchResult) (e : option jsstring) : ResearchStatusResponse :=
  {| research_id := research_id prev;
     status := s;
     topic := topic prev;
     created_at := created_at prev;
     started_at := started_at prev;
     completed_at := completed_at prev;
     current_stage := current_stage prev;
     progress := progress prev;
     Types.error := e;
     result := r |}.

(** [fetchResearch] once [pipelineApi.get] has answered [{ data, error }]. *)
Definition fetchResearch (data : option ResearchStatusResponse)
    (err : option jsstring) (st : State) : State :=
  let st := setLoading true st in
  let st :=
    if truthy_opt err then setError err st
    else match data with
         | Some d => setResearch (fun _ => Some d) st
         | None => st
         end in
  setLoading false st.

(** [ws.onopen] *)
Definition onopen (st : State) : State :=
  console_log (log (js "WebSocket connected") None) (setWsConnected true st).

(** [ws.onmessage]: [None] is a frame on which [JSON.parse] throws. *)
Definition onmessage (parsed : option WSEvent) (st : State) : State :=
  match parsed with
  | None => console_log (log_error (js "WebSocket message parse error:")) st
  | Some data =>
    match data with
    | WSConnectedEvent id =>
      console_log (log (js "WebSocket: connected") (Some id)) st
    | WSCurrentStateEvent d | WSUpdateEvent d =>
      (* 'data' in data && data.data *)
      if truthy_object d then setResearch (fun _ => Some d) st else st
    | WSFinalEvent s r e =>
      ws_close
        (setResearch
           (fun prev => match prev with
                        | Some prev => Some (with_final prev s r e)
                        | None => None
                        end) st)
    | WSErrorEvent m => setError (Some m) st
    | WSHeartbeatEvent =>
      (* Ignore heartbeats *)
      st
    end
  end.

(** [ws.onerror] and [ws.onclose] *)
Definition onerror (st : State) : State :=
  setWsConnected false (console_log (log_error (js "WebSocket error:")) st).

Definition onclose (st : State) : State :=
  console_log (log (js "WebSocket disconnected") None) (setWsConnected false st).

(** The WebSocket interface fires [message] events only while [readyState]
    is [OPEN]: a frame that arrives after [close()] was called is dropped
    before any handler runs. *)
Definition receive (parsed : option WSEvent) (st : State) : State :=
  match readyState st with
  | OPEN => onmessage parsed st
  | _ => st
  end.

Definition receive_all (frames : list (option WSEvent)) (st : State) : State :=
  fold_left (fun st f => receive f st) frames st.

(** *** The page body *)
Definition isActive (r : ResearchStatusResponse) : bool :=
  status_eqb (status r) pending || status_eqb (status r) running.

(** [a || b] on [string | null] with a string default. *)
Definition or_default (a : option jsstring) (b : jsstring) : jsstring :=
  match a with
  | Some s => if truthy s then s else b
  | None => b
  end.

(** The report column: the viewer, or one of the two placeholders. *)
Inductive ReportColumn :=
| Viewer (v : ReportViewer.View)
| InProgress (message : jsstring) (stageText : jsstring)
| NotGenerated (message : jsstring).

Record Detail := {
  heading : jsstring;
  idTag : jsstring;
  liveBadge : bool;
  cancelButton : bool;
  errorBanner : option jsstring;
  currentStageCard : jsstring;
  progressPanel : ResearchProgress.View;
  reportColumn : ReportColumn
}.

Inductive Page :=
| Spinner
| ErrorOnly (message : jsstring)
| NotFound (message : jsstring)
| DetailView (d : Detail).

Definition detail (st : State) (research : ResearchStatusResponse) : Detail :=
  {| heading := topic research;
     idTag := research_id research;
     liveBadge := wsConnected st;
     cancelButton := isActive research;
     errorBanner := if truthy_opt (error st) then error st else None;
     currentStageCard := or_default (current_stage research) (js "대기 중");
     progressPanel :=
       ResearchProgress.render (status research) (current_stage research)
         (progress research) (Types.error research);
     reportColumn :=
       match result research with
       | Some r => Viewer (ReportViewer.render r)
       | None =>
         if isActive research then
           InProgress (js "분석 진행 중입니다...")
                      (or_default (current_stage research) (js "초기화 중"))
         else NotGenerated (js "리포트가 아직 생성되지 않았습니다")
       end |}.

Definition render (st : State) : Page :=
  match research st with
  | None =>
    if loading st then Spinner
    else match error st with
         | Some e =>
           if truthy e then ErrorOnly e
           else NotFound (js "리서치를 찾을 수 없습니다")
         | None => NotFound (js "리서치를 찾을 수 없습니다")
         end
  | Some research => DetailView (detail st research)
  end.

End DetailPage.

(** ** web/app/research/page.tsx *)
Module ResearchPage.
Import Types.

Local Open Scope Z_scope.

(** [labels] of [getStatusLabel], an object literal keyed by status. *)
Definition labels : gmap string jsstring :=
  <["pending" := js "대기중"]>
  (<["running" := js "진행중"]>
  (<["completed" := js "완료"]>
  (<["failed" := js "실패"]>
  (<["cancelled" := js "취소됨"]> ∅)))).

(** [labels[status]]: [None] is [undefined]. *)
Definition getStatusLabel (status : ResearchStatus) : option jsstring :=
  labels !! status_string status.

(** The component state, one field per [useState] cell.  [formData] is a
    plain object: every update of it is a spread of the previous object
    with one property replaced. *)
Record State := {
  researches : list ResearchListItem;
  loading : bool;
  showNewForm : bool;
  submitting : bool;
  error : option jsstring;
  formData : gmap string value;
  symbolInput : jsstring
}.

Definition or_empty (o : option jsstring) : jsstring :=
  match o with
  | Some s => s
  | None => []
  end.

(** The initial state, from the URL parameters [symbol] and [market]
    ([searchParams.get] gives [null] for an absent one). *)
Definition initial (symbol market : option jsstring) : State :=
  let initialSymbol := or_empty symbol in
  let initialMarket :=
    match market with
    | Some m => if truthy m then m else js "US"
    | None => js "US"
    end in
  {| researches := [];
     loading := true;
     showNewForm := truthy initialSymbol;
     submitting := false;
     error := None;
     formData :=
       <["topic" := VStr (if truthy initialSymbol
                          then initialSymbol ++ js " 종목 분석 및 투자 전망"
                          else [])]>
       (<["symbols" := VArr []]>
       (<["market" := VStr initialMarket]>
       (<["context" := VStr []]>
       (<["max_topics" := VNum (Num 10)]>
       (<["language" := VStr (js "ko")]> ∅)))));
     symbolInput := initialSymbol |}.

Definition setResearches (l : list ResearchListItem) (st : State) : State :=
  {| researches := l; loading := loading st; showNewForm := showNewForm st;
     submitting := submitting st; error := error st; formData := formData st;
     symbolInput := symbolInput st |}.

Definition setLoading (b : bool) (st : State) : State :=
  {| researches := researches st; loading := b; showNewForm := showNewForm st;
     submitting := submitting st; error := error st; formData := formData st;
     symbolInput := symbolInput st |}.

Definition setShowNewForm (b : bool) (st : State) : State :=
  {| researches := researches st; loading := loading st; showNewForm := b;
     submitting := submitting st; error := error st; formData := formData st;
     symbolInput := symbolInput st |}.

Definition setSubmitting (b : bool) (st : State) : State :=
  {| researches := researches st; loading := loading st;
     showNewForm := showNewForm st; submitting := b; error := error st;
     formData := formData st; symbolInput := symbolInput st |}.

Definition setError (e : option jsstring) (st : State) : State :=
  {| researches := researches st; loading := loading st;
     showNewForm := showNewForm st; submitting := submitting st; error := e;
     formData := formData st; symbolInput := symbolInput st |}.

Definition setFormData (o : gmap string value) (st : State) : State :=
  {| researches := researches st; loading := loading st;
     showNewForm := showNewForm st; submitting := submitting st;
     error := error st; formData := o; symbolInput := symbolInput st |}.

Definition setSymbolInput (v : jsstring) (st : State) : State :=
  {| researches := researches st; loading := loading st;
     showNewForm := showNewForm st; submitting := submitting st;
     error := error st; formData := formData st; symbolInput := v |}.

(** [fetchResearches] once [pipelineApi.list] has answered [{ data, error }]. *)
Definition fetchResearches (data : option (list ResearchListItem))
    (err : option jsstring) (st : State) : State :=
  let st := setLoading true st in
  let st :=
    if truthy_opt err then setError err st
    else match data with
         | Some l => setResearches l st
         | None => st
         end in
  setLoading false st.

(** [symbolInput.split(',').map((s) => s.trim()).filter(Boolean)] *)
Definition symbols_of (input : jsstring) : list jsstring :=
  List.filter truthy (List.map trim (split 44%N input)).

(** [handleSubmit] up to the [await]: either the evaluation of
    [formData.topic.trim()] throws (no string under [topic]), or the handler
    returns the next state together with the argument of
    [pipelineApi.start], if it got that far. *)
Inductive Outcome :=
| Threw
| Returned (st : State) (request : option (gmap string value)).

Definition handleSubmit (st : State) : Outcome :=
  match formData st !! "topic" with
  | Some (VStr topic) =>
    if negb (truthy (trim topic)) then Returned st None
    else
      Returned (setError None (setSubmitting true st))
               (Some (<["symbols" := VArr (symbols_of (symbolInput st))]> (formData st)))
  | _ => Threw
  end.

(** The rest of [handleSubmit], once [pipelineApi.start] has answered
    [{ data, error }]: the next state and the route pushed, if any. *)
Definition handleSubmit_resume (data : option PipelineResearchResponse)
    (err : option jsstring) (st : State) : State * option jsstring :=
  if truthy_opt err then (setSubmitting false (setError err st), None)
  else match data with
       | Some d => (st, Some (js "/research/" ++ response_id d))
       | None => (st, None)
       end.

(** [disabled={submitting || !formData.topic.trim()}] of the submit button;
    [None] when the expression throws. *)
Definition submitDisabled (st : State) : option bool :=
  if submitting st then Some true
  else match formData st !! "topic" with
       | Some (VStr topic) => Some (negb (truthy (trim topic)))
       | _ => None
       end.

(** The options of the two [<select>] controls. *)
Inductive Market := US | KR | Both.
Inductive Language := ko | en.

Definition market_value (m : Market) : jsstring :=
  match m with
  | US => js "US"
  | KR => js "KR"
  | Both => js "Both"
  end.

Definition language_value (l : Language) : jsstring :=
  match l with
  | ko => js "ko"
  | en => js "en"
  end.

(** [<input type="range" min=.. max=..>] with the default step 1: wherever
    the user drags the thumb, the control's [value] is the decimal text of
    an integer clamped into [min, max]. *)
Definition range_value (min max position : Z) : jsstring :=
  string_of_Z (Z.max min (Z.min max position)).

(** What can happen to the page: the user edits a control, toggles or
    submits the form, or a pending API call is answered. *)
Inductive PageEvent :=
| ChangeTopic (v : jsstring)
| ChangeSymbolInput (v : jsstring)
| ChangeMarket (m : Market)
| ChangeLanguage (l : Language)
| ChangeContext (v : jsstring)
| ChangeMaxTopics (position : Z)
| ToggleNewForm
| CancelNewForm
| Submit
| StartAnswered (data : option PipelineResearchResponse) (err : option jsstring)
| ListAnswered (data : option (list ResearchListItem)) (err : option jsstring).

(** The handlers behind the events. *)
Definition handle (ev : PageEvent) (st : State) : State :=
  match ev with
  | ChangeTopic v => setFormData (<["topic" := VStr v]> (formData st)) st
  | ChangeSymbolInput v => setSymbolInput v st
  | ChangeMarket m =>
    setFormData (<["market" := VStr (market_value m)]> (formData st)) st
  | ChangeLanguage l =>
    setFormData (<["language" := VStr (language_value l)]> (formData st)) st
  | ChangeContext v => setFormData (<["context" := VStr v]> (formData st)) st
  | ChangeMaxTopics position =>
    setFormData
      (<["max_topics" := VNum (parseInt (range_value 3 20 position))]> (formData st)) st
  | ToggleNewForm => setShowNewForm (negb (showNewForm st)) st
  | CancelNewForm => setShowNewForm false st
  | Submit =>
    match handleSubmit st with
    | Returned st' _ => st'
    | Threw => st
    end
  | StartAnswered data err => fst (handleSubmit_resume data err st)
  | ListAnswered data err => fetchResearches data err st
  end.

Definition run (events : list PageEvent) (st : State) : State :=
  fold_left (fun st ev => handle ev st) events st.

(** The properties the request object is built with, and the five of the
    REST interface description. *)
Definition sent_fields : gset string :=
  {[ "topic"; "symbols"; "market"; "context"; "max_topics"; "language" ]}.

Definition spec_fields : gset string :=
  {[ "topic"; "symbols"; "market"; "context"; "max_topics" ]}.

(** The shape [formData] keeps through every handler. *)
Record well_formed (st : State) : Prop := {
  wf_fields : dom (formData st) = sent_fields;
  wf_topic : exists t, formData st !! "topic" = Some (VStr t);
  wf_max_topics :
    exists z, formData st !! "max_topics" = Some (VNum (Num z)) /\ (3 <= z <= 20)%Z
}.

End ResearchPage.

(** ** The topic queue of the research pipeline

    The queue belongs to the Python back end
    (DynamicTopicQueue and TopicBlock of
    src/agents/research/data_structures.py), which is not among the
    sources; it is written down here from sections 3 and 8 of the
    specification. *)
Module TopicQueue.

(** Modelled from the spec: the status of a TopicBlock (back-end type,
    absent from the sources), enumerated
    {pending, researching, completed, failed}. *)
Inductive TopicStatus := pending | researching | completed | failed.

(** Modelled from the spec: the tool types of a ToolTrace (back-end type,
    absent from the sources). *)
Inductive ToolType :=
| stock_price | financials | technical_indicators | news
| web_search | rag_search | youtube.

(** Modelled from the spec: ToolTrace (back-end type, absent from the
    sources), the record of one tool invocation. *)
Record ToolTrace := {
  tool_type : ToolType;
  input_params : list (string * jsstring);
  raw_output : jsstring;
  citation_id : nat;
  timestamp : jsstring
}.

(** Modelled from the spec: TopicBlock (back-end type, absent from the
    sources), one decomposed research sub-topic. *)
Record TopicBlock := {
  topic : jsstring;
  status : TopicStatus;
  notes : list jsstring;
  tool_traces : list ToolTrace
}.

(** Modelled from the spec: the block a topic enters the queue as (the
    constructor is absent from the sources): pending, with no notes and no
    traces. *)
Definition new_block (t : jsstring) : TopicBlock :=
  {| topic := t; status := pending; notes := []; tool_traces := [] |}.

Section Queue.

(** The specification names the normalisation (case and white space) but
    does not define it: the queue is parametric in it. *)
Variable normalize : jsstring -> jsstring.

(** Modelled from the spec: TopicQueue (DynamicTopicQueue of the back end,
    absent from the sources), an ordered collection of TopicBlocks. *)
Definition TopicQueue := list TopicBlock.

(** Modelled from the spec: the normalised topic text of a block (the
    queue's dedup key, absent from the sources). *)
Definition key (b : TopicBlock) : jsstring := normalize (topic b).

(** Modelled from the spec: whether a block has the normalised topic text
    of [t] (the queue's dedup check, absent from the sources). *)
Definition same_topic (t : jsstring) (b : TopicBlock) : bool :=
  jsstring_eqb (key b) (normalize t).

(** Modelled from the spec: whether the queue holds a block with the
    normalised topic text of [t] (the queue's dedup check, absent from the
    sources). *)
Definition contains (q : TopicQueue) (t : jsstring) : bool :=
  existsb (same_topic t) q.

(** Modelled from the spec: the queue's insertion (absent from the
    sources) with the dedup rule; a duplicate is a no-op, a new topic is
    appended at the end. *)
Definition insert (q : TopicQueue) (t : jsstring) : TopicQueue :=
  if contains q t then q else q ++ [new_block t].

(** Modelled from the spec: the number of blocks whose normalised topic
    text is that of [t] (a count over the absent queue). *)
Definition occurrences (q : TopicQueue) (t : jsstring) : nat :=
  length (List.filter (same_topic t) q).

(** Modelled from the spec: the queue invariant (absent from the sources),
    normalised topic text is unique within a queue. *)
Definition unique (q : TopicQueue) : Prop := NoDup (List.map key q).

End Queue.

(** Modelled from the spec: ASCII lower-casing, for the sample
    normalisation below (the back end's normalisation is absent from the
    sources). *)
Definition lower (c : N) : N :=
  if (65 <=? c) && (c <=? 90) then c + 32 else c.

(** Modelled from the spec: one normalisation of the kind the spec names
    (the back end's own is absent from the sources), trimming and ASCII
    lower-casing. *)
Definition normalize_topic (t : jsstring) : jsstring := List.map lower (trim t).

End TopicQueue.

(** ** Sample data: job snapshots as [GET /research/{id}] returns them *)
Module Scenario.
Import Types.

Definition running_job : ResearchStatusResponse :=
  {| research_id := js "pipeline_abc123";
     status := running;
     topic := js "AAPL quick check";
     created_at := js "2026-01-20T09:00:00";
     started_at := Some (js "2026-01-20T09:00:01");
     completed_at := None;
     current_stage := Some (js "research");
     progress := None;
     error := None;
     result := None |}.

Definition failed_job (message : jsstring) : ResearchStatusResponse :=
  {| research_id := js "pipeline_abc123";
     status := failed;
     topic := js "AAPL quick check";
     created_at := js "2026-01-20T09:00:00";
     started_at := Some (js "2026-01-20T09:00:01");
     completed_at := Some (js "2026-01-20T09:03:00");
     current_stage := Some (js "decompose");
     progress := None;
     error := Some message;
     result := None |}.

Definition finished_result : ResearchResult :=
  {| report := Some {| report_content := js "# AAPL";
                       executive_summary := js "Stable.";
                       main_topic := js "AAPL quick check";
                       research_objective := js "Quick check";
                       generated_at := js "2026-01-20T09:05:00" |};
     statistics := Some {| total_topics := 3; completed_topics := 3;
                           failed_topics := 0; total_tool_calls := 7 |} |}.

(** The detail page showing a snapshot, its socket open. *)
Definition page_showing (r : ResearchStatusResponse) : DetailPage.State :=
  {| DetailPage.research := Some r;
     DetailPage.loading := false;
     DetailPage.error := None;
     DetailPage.wsConnected := true;
     DetailPage.readyState := DetailPage.OPEN;
     DetailPage.console := [] |}.

End Scenario.

(** ** More of the JavaScript library *)
Module JSLib.

(** [s.includes(p)] *)
Fixpoint includes (s p : jsstring) : bool :=
  startsWith s p
  || match s with
     | [] => false
     | _ :: s' => includes s' p
     end.

(** [l.findIndex(f)]: the index of the first element that satisfies [f],
    or -1. *)
Fixpoint findIndex_from {A : Type} (f : A -> bool) (l : list A) (i : Z) : Z :=
  match l with
  | [] => (-1)%Z
  | x :: l' => if f x then i else findIndex_from f l' (i + 1)%Z
  end.

Definition findIndex {A : Type} (f : A -> bool) (l : list A) : Z :=
  findIndex_from f l 0%Z.

(** [s.replace(/c/g, d)] for single code units [c] and [d]. *)
Definition replace_unit (c d : N) (s : jsstring) : jsstring :=
  List.map (fun x => if x =? c then d else x) s.

(** [\w] *)
Definition is_word (c : N) : bool :=
  ((97 <=? c) && (c <=? 122)) || ((65 <=? c) && (c <=? 90))
  || is_digit c || (c =? 95).

End JSLib.

(** ** web/components/ResearchProgress.tsx: stages and event labels *)
Module Stages.
Import Types JSLib.

Record StageInfo := {
  id : jsstring;
  label : jsstring;
  description : jsstring
}.

Definition STAGES : list StageInfo :=
  [ {| id := js "rephrase"; label := js "분석 계획";
       description := js "분석 주제를 명확하게 정리합니다" |};
    {| id := js "decompose"; label := js "분석 항목 분해";
       description := js "세부 분석 항목으로 분할합니다" |};
    {| id := js "research"; label := js "데이터 수집";
       description := js "주가, 재무, 뉴스 데이터를 수집합니다" |};
    {| id := js "notes"; label := js "분석 수행";
       description := js "기술적/기본적 분석을 수행합니다" |};
    {| id := js "report"; label := js "리포트 생성";
       description := js "종합 투자 리포트를 작성합니다" |} ].

(** [EVENT_LABELS], in the order of the object literal (the order
    [Object.entries] walks). *)
Definition EVENT_LABELS : list (jsstring * jsstring) :=
  [ (js "stage_start", js "시작");
    (js "stage_complete", js "완료");
    (js "stage_error", js "오류");
    (js "tool_call", js "도구 호출");
    (js "tool_result", js "결과 수신");
    (js "llm_call", js "AI 분석 중");
    (js "llm_response", js "AI 응답");
    (js "progress", js "진행 중");
    (js "thinking", js "분석 중");
    (js "researching", js "리서치 중") ].

(** The own property of an object literal under a key. *)
Fixpoint own (k : jsstring) (o : list (jsstring * jsstring)) : option jsstring :=
  match o with
  | [] => None
  | (k', v) :: o' => if jsstring_eqb k' k then Some v else own k o'
  end.

(** The outcome of a stage. *)
Inductive StageStatus :=
| stage_pending | stage_running | stage_completed | stage_failed.

Definition stage_status_eqb (a b : StageStatus) : bool :=
  match a, b with
  | stage_pending, stage_pending | stage_running, stage_running
  | stage_completed, stage_completed | stage_failed, stage_failed => true
  | _, _ => false
  end.

(** What [getEventLabel] returns: a string, or, when the event name is the
    name of a property every object inherits ([constructor], [toString],
    ...), that inherited value. *)
Inductive Label :=
| Text (s : jsstring)
| Inherited (name : jsstring).

Section Platform.

(** [String.prototype.toLowerCase] (the Unicode case mapping) and the
    property names of [Object.prototype] belong to the platform. *)
Variable toLowerCase : jsstring -> jsstring.
Variable inherited : jsstring -> bool.

(** [STAGES.findIndex((s) => currentStage?.toLowerCase().includes(s.id))] *)
Definition currentIdx (currentStage : option jsstring) : Z :=
  findIndex
    (fun s => match currentStage with
              | Some cs => includes (toLowerCase cs) (id s)
              | None => false
              end)
    STAGES.

(** [STAGES.findIndex((s) => s.id === stageId)] *)
Definition stageIdx (stageId : jsstring) : Z :=
  findIndex (fun s => jsstring_eqb (id s) stageId) STAGES.

Definition getStageStatus (status : ResearchStatus)
    (currentStage : option jsstring) (stageId : jsstring) : StageStatus :=
  if status_eqb status failed then
    if (stageIdx stageId <? currentIdx currentStage)%Z then stage_completed
    else if (stageIdx stageId =? currentIdx currentStage)%Z then stage_failed
    else stage_pending
  else if status_eqb status completed then stage_completed
  else if status_eqb status pending then stage_pending
  else
    (* Running status *)
    if (stageIdx stageId <? currentIdx currentStage)%Z then stage_completed
    else if (stageIdx stageId =? currentIdx currentStage)%Z then stage_running
    else stage_pending.

(** The statuses of the five stages, in the order they are listed. *)
Definition stageStatuses (status : ResearchStatus)
    (currentStage : option jsstring) : list StageStatus :=
  List.map (fun stage => getStageStatus status currentStage (id stage)) STAGES.

Definition completedCount (status : ResearchStatus)
    (currentStage : option jsstring) : nat :=
  length (List.filter
            (fun stage =>
               stage_status_eqb (getStageStatus status currentStage (id stage))
                                stage_completed)
            STAGES).

(** [getEventLabel] *)
Definition partial_match (event : jsstring) : jsstring :=
  match List.find (fun kl => includes (toLowerCase event) (fst kl)) EVENT_LABELS with
  | Some kl => snd kl
  | None => replace_unit 95 32 event
  end.

Definition getEventLabel (event : option jsstring) : Label :=
  match event with
  | None => Text []
  | Some event =>
    if negb (truthy event) then Text []
    else
      (* Check for exact match *)
      match own event EVENT_LABELS with
      | Some l => if truthy l then Text l else Text (partial_match event)
      | None =>
        if inherited event then Inherited event
        else Text (partial_match event)
      end
  end.

(** [getEventLabel(progress.event) || '처리 중'] of the expanded stage. *)
Definition runningLabel (event : option jsstring) : Label :=
  match getEventLabel event with
  | Text s => if truthy s then Text s else Text (js "처리 중")
  | l => l
  end.

End Platform.

End Stages.

(** ** web/components/ReportViewer.tsx: copy and download *)
Module Download.
Import Types JSLib.

(** [가-힣] *)
Definition is_hangul (c : N) : bool := (44032 <=? c) && (c <=? 55203).

(** [[^)]*\)] matches at the head of [r] exactly when [r] holds a [)]. *)
Fixpoint closes (r : jsstring) : bool :=
  match r with
  | [] => false
  | c :: r' => (c =? 41) || closes r'
  end.

(** [/\((\d{6})[^)]*\)/] anchored at the head of [s]: the first group. *)
Definition code_at (s : jsstring) : option jsstring :=
  match s with
  | 40 :: r =>
    let digits := take 6 r in
    if (length digits =? 6)%nat && forallb is_digit digits && closes (drop 6 r)
    then Some digits
    else None
  | _ => None
  end.

(** [topicName.match(/\((\d{6})[^)]*\)/)]: the first group of the leftmost
    match. *)
Fixpoint codeMatch (s : jsstring) : option jsstring :=
  match code_at s with
  | Some code => Some code
  | None =>
    match s with
    | [] => None
    | _ :: s' => codeMatch s'
    end
  end.

(** The complement of [[^\w\s가-힣]]. *)
Definition kept (c : N) : bool := is_word c || is_space c || is_hangul c.

(** [.replace(/\s+/g, '_')]: each maximal run of white space becomes one
    underscore; [in_run] tells that the previous character was white
    space. *)
Fixpoint squash (in_run : bool) (s : jsstring) : jsstring :=
  match s with
  | [] => []
  | c :: s' =>
    if is_space c then
      if in_run then squash true s' else 95 :: squash true s'
    else c :: squash false s'
  end.

(** Clean up topic name for filename (remove special characters, limit
    length). *)
Definition cleaned (topicName : jsstring) : jsstring :=
  take 30 (squash false (List.filter kept topicName)).

Definition topicName (report : Report) : jsstring :=
  let topicName :=
    if truthy (main_topic report) then main_topic report
    else js "research_report" in
  match codeMatch topicName with
  | Some code => code
  | None => cleaned topicName
  end.

(** [new Date().toISOString().split('T')[0]], from the ISO text of the
    clock. *)
Definition date_of (now : jsstring) : jsstring :=
  match split 84 now with
  | d :: _ => d
  | [] => []
  end.

(** What [handleDownload] saves: the [download] name of the anchor and the
    text of the blob. *)
Record Saved := {
  download : jsstring;
  blob : jsstring
}.

Definition handleDownload (now : jsstring) (result : ResearchResult) : option Saved :=
  match report result with
  | Some report =>
    if truthy (report_content report) then
      Some {| download := date_of now ++ js "_" ++ topicName report
                          ++ js "_리서치리포트.md";
              blob := report_content report |}
    else None
  | None => None
  end.

(** [handleCopy]: the text written to the clipboard, if any. *)
Definition handleCopy (result : ResearchResult) : option jsstring :=
  match report result with
  | Some report =>
    if truthy (report_content report) then Some (report_content report) else None
  | None => None
  end.

End Download.

(** ** Bookkeeping for the scan of [MarkdownRenderer] *)
Module Frames.
Import ReportViewer.

Definition key_of (e : Element) : nat :=
  match e with
  | pre k _ | h1 k _ | h2 k _ | h3 k _ | li k _ | li_decimal k _ | br k | p k _ => k
  end.

(** The scan state with elements put in front of its own. *)
Definition prepend (front : list Element) (st : Scan) : Scan :=
  {| elements := front ++ elements st;
     inCodeBlock := inCodeBlock st;
     codeContent := codeContent st;
     codeLanguage := codeLanguage st |}.

(** The scan state outside any block, with no element yet, whatever the
    language last recorded. *)
Definition outside (language : jsstring) : Scan :=
  {| elements := []; inCodeBlock := false; codeContent := [];
     codeLanguage := language |}.

(** The element a line gives outside a code block, when it is no fence. *)
Definition block_of (line : jsstring) (index : nat) : Element :=
  if startsWith line (js "# ") then h1 index (slice 2 line)
  else if startsWith line (js "## ") then h2 index (slice 3 line)
  else if startsWith line (js "### ") then h3 index (slice 4 line)
  else if startsWith line (js "- ") || startsWith line (js "* ") then
    li index (renderInlineMarkdown (slice 2 line))
  else
    match numberedMatch line with
    | Some g => li_decimal index (renderInlineMarkdown g)
    | None =>
      if jsstring_eqb (trim line) [] then br index
      else p index (renderInlineMarkdown line)
    end.

(** The elements of consecutive lines, none of them a fence, outside a
    code block. *)
Fixpoint blocks_of (lines : list jsstring) (index : nat) : list Element :=
  match lines with
  | [] => []
  | line :: rest => block_of line index :: blocks_of rest (S index)
  end.

End Frames.

(** ** web/app/research/[id]/page.tsx: the socket effect and cancelling *)
Module DetailEffects.
Import Types DetailPage.

(** The guard of the effect: no socket without snapshot, none for a
    completed, failed or cancelled job. *)
Definition opensSocket (research : option ResearchStatusResponse) : bool :=
  match research with
  | None => false
  | Some research =>
    negb (status_eqb (status research) completed
          || status_eqb (status research) failed
          || status_eqb (status research) cancelled)
  end.

Definition set_readyState (r : ReadyState) (st : State) : State :=
  {| research := research st; loading := loading st; error := error st;
     wsConnected := wsConnected st; readyState := r; console := console st |}.

(** [research?.status], the dependency of the effect that changes with the
    state ([researchId], the other one, is fixed for the page): React
    re-runs the effect when it differs from one render to the next. *)
Definition effect_dependency (st : State) : option ResearchStatus :=
  match research st with
  | Some research => Some (status research)
  | None => None
  end.

(** The cleanup the effect returns. *)
Definition cleanup (st : State) : State :=
  match readyState st with
  | OPEN => ws_close st
  | _ => st
  end.

(** The socket reaching [OPEN]: the browser sets [readyState], then fires
    the handler. *)
Definition opened (st : State) : State := onopen (set_readyState OPEN st).

End DetailEffects.

(** ** web/app/research/page.tsx: the rows of the list *)
Module ListRows.
Import Types ResearchPage.

Inductive Icon := CheckCircle | Loader2 | XCircle | Clock.

(** [getStatusIcon]: the icon and its colour class. *)
Definition getStatusIcon (status : ResearchStatus) : Icon * string :=
  match status with
  | completed => (CheckCircle, "text-green-500")
  | running => (Loader2, "text-blue-500")
  | failed => (XCircle, "text-red-500")
  | cancelled => (XCircle, "text-yellow-500")
  | _ => (Clock, "text-gray-400")
  end.

(** One row of the list: icon, topic, status label, the two date texts as
    the API gave them (their formatting is the browser's), and whether the
    cancel button is there. *)
Record Row := {
  row_key : jsstring;
  row_icon : Icon * string;
  row_topic : jsstring;
  row_label : option jsstring;
  row_created : jsstring;
  row_completed : option jsstring;
  row_cancel : bool
}.

Definition row (research : ResearchListItem) : Row :=
  {| row_key := item_id research;
     row_icon := getStatusIcon (item_status research);
     row_topic := item_topic research;
     row_label := getStatusLabel (item_status research);
     row_created := item_created_at research;
     row_completed :=
       if truthy_opt (item_completed_at research) then item_completed_at research
       else None;
     row_cancel := status_eqb (item_status research) pending
                   || status_eqb (item_status research) running |}.

End ListRows.

(** ** Notions the properties are stated with *)
Module Notions.
Import Types.

(** A ticker as [symbols_of] returns it: not empty, not padded with white
    space, without comma. *)
Definition clean_symbol (x : jsstring) : Prop :=
  x <> [] /\ trim x = x /\ ~ In 44 x.

(** The five statuses. *)
Definition all_statuses : list ResearchStatus :=
  [pending; running; completed; failed; cancelled].

(** A code unit that is safe in a file name: a word character or a Hangul
    syllable. *)
Definition name_safe (c : N) : bool := JSLib.is_word c || Download.is_hangul c.

(** Text free of the two markers of inline markdown, [*] and the
    backquote. *)
Definition plain (s : jsstring) : Prop :=
  ~ In 42 s /\ ~ In 96 s.

(** Text without line terminator. *)
Definition one_line (s : jsstring) : Prop :=
  Forall (fun c => is_line_terminator c = false) s.

End Notions.

(** ** The picture of the five stages *)
Module Picture.
Import Stages.

(** Stages before the current one completed, the current one carrying
    [marker], the later ones pending; all pending when no stage is
    current ([current] is -1). *)
Definition stage_picture (marker : StageStatus) (current : Z) : list StageStatus :=
  if (current <? 0)%Z then repeat stage_pending 5
  else repeat stage_completed (Z.to_nat current)
       ++ [marker] ++ repeat stage_pending (4 - Z.to_nat current).

(** ASCII lower-casing, which is what [toLowerCase] does on ASCII text. *)
Definition ascii_lower (s : jsstring) : jsstring := List.map TopicQueue.lower s.

(** No property is inherited: an object without prototype. *)
Definition no_prototype (name : jsstring) : bool := false.

End Picture.

(** ** Counting fences and code blocks *)
Module Fences.
Import ReportViewer.

Definition is_fence (line : jsstring) : bool := startsWith line fence.

(** The number of lines that start with a fence. *)
Definition fences (lines : list jsstring) : nat :=
  length (List.filter is_fence lines).

Definition is_pre (e : Element) : bool :=
  match e with
  | pre _ _ => true
  | _ => false
  end.

(** The number of code blocks among the elements. *)
Definition code_blocks (els : list Element) : nat :=
  length (List.filter is_pre els).

End Fences.

(** * Properties *)

(** ** Strings *)
Section Strings.

Lemma trimStart_nil_iff (s : jsstring) :
  trimStart s = [] <-> forallb is_space s = true.
Proof.
  induction s as [|c s IH]; simpl; [tauto|].
  destruct (is_space c); simpl; [exact IH|].
  split; discriminate.
Qed.

Lemma trimStart_head (s : jsstring) c r :
  trimStart s = c :: r -> is_space c = false.
Proof.
  induction s as [|a s IH]; simpl; [discriminate|].
  destruct (is_space a) eqn:Ha; [exact IH|].
  intros [= <- _]. exact Ha.
Qed.

Lemma forallb_is_space_rev (s : jsstring) :
  forallb is_space (rev s) = forallb is_space s.
Proof.
  induction s as [|c s IH]; simpl; [reflexivity|].
  rewrite forallb_app, IH. simpl. rewrite andb_true_r. apply andb_comm.
Qed.

(** [trim] leaves nothing exactly when the string is white space only. *)
Lemma trim_nil_iff (s : jsstring) :
  trim s = [] <-> forallb is_space s = true.
Proof.
  unfold trim, trimEnd. rewrite <- trimStart_nil_iff. split.
  - intros H. apply (f_equal (@rev N)) in H. rewrite rev_involutive in H.
    simpl in H. apply trimStart_nil_iff in H.
    rewrite forallb_is_space_rev in H.
    destruct (trimStart s) as [|c r] eqn:E; [reflexivity|].
    apply trimStart_head in E. simpl in H. rewrite E in H. discriminate.
  - intros ->. reflexivity.
Qed.

End Strings.

(** ** The new-research form (web/app/research/page.tsx) *)
Section NewResearchForm.
Import Types ResearchPage.

Example symbols_of_input :
  symbols_of (js "AAPL, ,MSFT,") = [js "AAPL"; js "MSFT"]
  /\ symbols_of [] = [].
Proof. split; reflexivity. Qed.

Example parseInt_examples :
  parseInt (js "12px") = Num 12 /\ parseInt (js " -7") = Num (-7)
  /\ parseInt (js "0x1f") = Num 31 /\ parseInt (js "px") = NaN.
Proof. repeat split. Qed.

(** C6: whenever the topic field holds nothing but white space (the empty
    string included), [handleSubmit] returns at its guard, with the state
    untouched and no call of [pipelineApi.start], and the submit button
    is disabled. *)
Theorem blank_topic_is_not_submitted (st : State) (topic : jsstring) :
  formData st !! "topic" = Some (VStr topic) ->
  forallb is_space topic = true ->
  trim topic = []
  /\ handleSubmit st = Returned st None
  /\ submitDisabled st = Some true.
Proof.
  intros Hlook Hblank. apply trim_nil_iff in Hblank.
  unfold handleSubmit, submitDisabled. rewrite Hlook, Hblank. simpl.
  repeat split. destruct (submitting st); reflexivity.
Qed.

Lemma blank_topic_is_not_submitted_witness :
  let st := run [ChangeTopic (js "  ")] (initial None None) in
  trim (js "  ") = []
  /\ handleSubmit st = Returned st None
  /\ submitDisabled st = Some true.
Proof.
  apply blank_topic_is_not_submitted; reflexivity.
Defined.


Lemma parseInt_string_of_Z (z : Z) :
  (3 <= z <= 20)%Z -> parseInt (string_of_Z z) = Num z.
Proof.
  intros H. destruct z as [|q|q]; try lia.
  do 5 (try destruct q as [q|q|]); try lia; reflexivity.
Qed.

Lemma range_value_parsed (position : Z) :
  exists z, parseInt (range_value 3 20 position) = Num z /\ (3 <= z <= 20)%Z.
Proof.
  exists (Z.max 3 (Z.min 20 position)). split; [|lia].
  unfold range_value. apply parseInt_string_of_Z. lia.
Qed.

Lemma initial_well_formed symbol market : well_formed (initial symbol market).
Proof.
  split.
  - unfold initial, sent_fields. simpl.
    rewrite !dom_insert_L, dom_empty_L. set_solver.
  - eexists. unfold initial. simpl. apply lookup_insert_eq.
  - exists 10%Z. split; [|lia]. unfold initial. simpl.
    by rewrite !lookup_insert_ne, lookup_insert_eq by done.
Qed.

Lemma well_formed_same_form st st' :
  formData st' = formData st -> well_formed st -> well_formed st'.
Proof.
  intros Heq [Hd Ht Hz]. split; by rewrite Heq.
Qed.

(** Replacing one of the six properties keeps the shape, as long as
    [topic] stays a string and [max_topics] an integer from 3 to 20. *)
Lemma well_formed_insert st (k : string) (v : value) :
  k ∈ sent_fields ->
  (k = "topic"%string -> exists t, v = VStr t) ->
  (k = "max_topics"%string -> exists z, v = VNum (Num z) /\ (3 <= z <= 20)%Z) ->
  well_formed st ->
  well_formed (setFormData (<[k := v]> (formData st)) st).
Proof.
  intros Hk Htopic Hmax [Hd [t Ht] [z [Hz Hr]]]. split; simpl.
  - rewrite dom_insert_L, Hd. apply subseteq_union_1_L.
    by apply singleton_subseteq_l.
  - destruct (decide (k = "topic"%string)) as [->|Hne].
    + destruct (Htopic eq_refl) as [t' ->]. exists t'. apply lookup_insert_eq.
    + exists t. by rewrite lookup_insert_ne.
  - destruct (decide (k = "max_topics"%string)) as [->|Hne].
    + destruct (Hmax eq_refl) as [z' [-> Hr']]. exists z'.
      split; [apply lookup_insert_eq | exact Hr'].
    + exists z. split; [by rewrite lookup_insert_ne | exact Hr].
Qed.

Lemma handle_well_formed ev st : well_formed st -> well_formed (handle ev st).
Proof.
  intros Hwf. destruct ev; simpl.
  - apply well_formed_insert; [set_solver | eauto | discriminate | exact Hwf].
  - by apply (well_formed_same_form st).
  - apply well_formed_insert; [set_solver | discriminate | discriminate | exact Hwf].
  - apply well_formed_insert; [set_solver | discriminate | discriminate | exact Hwf].
  - apply well_formed_insert; [set_solver | discriminate | discriminate | exact Hwf].
  - apply well_formed_insert; [set_solver | discriminate | | exact Hwf].
    intros _. destruct (range_value_parsed position) as [z [-> Hr]]. eauto.
  - by apply (well_formed_same_form st).
  - by apply (well_formed_same_form st).
  - unfold handleSubmit.
    destruct (formData st !! "topic") as [[t|n|l]|]; try exact Hwf.
    destruct (negb (truthy (trim t))); [exact Hwf|].
    by apply (well_formed_same_form st).
  - apply (well_formed_same_form st); [|exact Hwf].
    unfold handleSubmit_resume.
    destruct (truthy_opt err); [reflexivity|]. by destruct data.
  - apply (well_formed_same_form st); [|exact Hwf].
    unfold fetchResearches.
    destruct (truthy_opt err); [reflexivity|]. by destruct data.
Qed.

Lemma run_well_formed events st : well_formed st -> well_formed (run events st).
Proof.
  revert st. induction events as [|ev events IH]; intros st H; [exact H|].
  apply IH, handle_well_formed, H.
Qed.

(** What a submission sends, in terms of the state it starts from. *)
Lemma handleSubmit_request st st' request :
  handleSubmit st = Returned st' (Some request) ->
  request = <["symbols" := VArr (symbols_of (symbolInput st))]> (formData st)
  /\ exists t, formData st !! "topic" = Some (VStr t) /\ trim t <> [].
Proof.
  unfold handleSubmit. intros H.
  destruct (formData st !! "topic") as [[t|n|a]|] eqn:E; try discriminate.
  destruct (trim t) as [|c r] eqn:Et; simpl in H; [discriminate|].
  injection H as _ <-. split; [reflexivity|]. exists t. by rewrite Et.
Qed.

(** C3 (as the code has it): whatever the URL parameters and whatever the
    user did to the form, the object a submission hands to
    [pipelineApi.start] has exactly the six properties topic, symbols,
    market, context, max_topics and language; topic is a string that is
    not blank, symbols is the list read from the symbol input. *)
Theorem request_has_six_fields symbol market events st' request :
  handleSubmit (run events (initial symbol market)) = Returned st' (Some request) ->
  dom request = sent_fields
  /\ (exists t, request !! "topic" = Some (VStr t) /\ trim t <> [])
  /\ (exists l, request !! "symbols" = Some (VArr l))
  /\ is_Some (request !! "language").
Proof.
  intros H. apply handleSubmit_request in H as [-> [t [Ht Hne]]].
  destruct (run_well_formed events _ (initial_well_formed symbol market))
    as [Hd _ _].
  assert (Hdom : dom (<["symbols" := VArr (symbols_of (symbolInput
                   (run events (initial symbol market))))]>
                   (formData (run events (initial symbol market)))) = sent_fields).
  { rewrite dom_insert_L, Hd. unfold sent_fields. set_solver. }
  split; [exact Hdom|]. split; [|split].
  - exists t. by rewrite lookup_insert_ne.
  - eexists. apply lookup_insert_eq.
  - apply elem_of_dom. rewrite Hdom. unfold sent_fields. set_solver.
Qed.

Lemma request_has_six_fields_witness :
  exists st' request,
    handleSubmit (run [ChangeTopic (js "AAPL quick check");
                       ChangeSymbolInput (js "AAPL"); ChangeMaxTopics 3]
                      (initial None None)) = Returned st' (Some request)
    /\ dom request = sent_fields.
Proof.
  eexists _, _. split; [reflexivity|].
  eapply (request_has_six_fields None None
            [ChangeTopic (js "AAPL quick check");
             ChangeSymbolInput (js "AAPL"); ChangeMaxTopics 3]).
  reflexivity.
Defined.

(** C3, as stated, fails: a plain submission carries a [language]
    property next to the five the specification lists. *)
Lemma request_has_five_fields_counterexample :
  exists st' request,
    handleSubmit (run [ChangeTopic (js "AAPL quick check")] (initial None None))
      = Returned st' (Some request)
    /\ request !! "language" = Some (VStr (js "ko"))
    /\ dom request <> spec_fields.
Proof.
  eexists _, _. split; [reflexivity|]. split; [reflexivity|].
  intros H. assert (Hin : "language" ∈ spec_fields).
  { rewrite <- H. apply elem_of_dom. eexists. reflexivity. }
  unfold spec_fields in Hin. set_solver.
Qed.

(** C4: [max_topics] starts at 10, the range control only ever yields an
    integer between 3 and 20, and so every request a submission sends
    carries a [max_topics] in that range. *)
Theorem max_topics_within_range symbol market :
  formData (initial symbol market) !! "max_topics" = Some (VNum (Num 10))
  /\ (forall position, exists z,
        parseInt (range_value 3 20 position) = Num z /\ (3 <= z <= 20)%Z)
  /\ (forall events st' request,
        handleSubmit (run events (initial symbol market))
          = Returned st' (Some request) ->
        exists z, request !! "max_topics" = Some (VNum (Num z)) /\ (3 <= z <= 20)%Z).
Proof.
  split; [|split].
  - unfold initial. simpl. by rewrite !lookup_insert_ne, lookup_insert_eq by done.
  - apply range_value_parsed.
  - intros events st' request H.
    apply handleSubmit_request in H as [-> _].
    destruct (run_well_formed events _ (initial_well_formed symbol market))
      as [_ _ [z [Hz Hr]]].
    exists z. split; [|exact Hr]. by rewrite lookup_insert_ne.
Qed.

Lemma max_topics_within_range_witness :
  exists st' request z,
    handleSubmit (run [ChangeTopic (js "AAPL"); ChangeMaxTopics 50;
                       ChangeSymbolInput (js "AAPL")] (initial None None))
      = Returned st' (Some request)
    /\ request !! "max_topics" = Some (VNum (Num z))
    /\ (3 <= z <= 20)%Z.
Proof.
  destruct (max_topics_within_range None None) as [_ [_ H]].
  destruct (H [ChangeTopic (js "AAPL"); ChangeMaxTopics 50;
               ChangeSymbolInput (js "AAPL")] _ _ eq_refl) as [z [Hz Hr]].
  eexists _, _, z. split; [reflexivity|]. split; [exact Hz | exact Hr].
Defined.

End NewResearchForm.

(** ** Status labels *)
Section StatusLabels.
Import Types.

(** C7: both label tables are total over [ResearchStatus]: for each of
    the five statuses the list page's [getStatusLabel] and the lookup in
    [StatusBadge]'s [config] find an entry, and its label is not empty. *)
Theorem status_labels_total (s : ResearchStatus) :
  In s [pending; running; completed; failed; cancelled]
  /\ (exists l, ResearchPage.getStatusLabel s = Some l /\ l <> [])
  /\ (exists l, ResearchProgress.StatusBadge s = Some l /\ l <> []).
Proof.
  destruct s; (split; [simpl; tauto|]);
    split; eexists; (split; [reflexivity|]); vm_compute; discriminate.
Qed.

End StatusLabels.

(** ** The research detail page (web/app/research/[id]/page.tsx) *)
Section Detail.
Import Types DetailPage.

(** C1 (as the code has it): with a snapshot present the page renders the
    detail view, and in it
    - a failed job whose error is a non-empty string has that very string
      as the text of the progress panel's error block;
    - a pending or running job without result gets no error block, and
      the report column is the in-progress placeholder. *)
Theorem snapshot_rendering (st : State) (r : ResearchStatusResponse) :
  research st = Some r ->
  exists d, render st = DetailView d
    /\ (forall e, status r = failed -> Types.error r = Some e -> e <> [] ->
          ResearchProgress.errorMessage (progressPanel d) = Some e)
    /\ (result r = None -> status r = pending \/ status r = running ->
          ResearchProgress.errorMessage (progressPanel d) = None
          /\ reportColumn d =
               InProgress (js "분석 진행 중입니다...")
                          (or_default (current_stage r) (js "초기화 중"))).
Proof.
  intros Hr. exists (detail st r). split; [unfold render; by rewrite Hr|].
  split.
  - intros e Hs He Hne. simpl. unfold ResearchProgress.render. simpl.
    rewrite He, Hs. destruct e; [congruence|reflexivity].
  - intros Hres Hact. simpl. unfold isActive. rewrite Hres.
    destruct Hact as [-> | ->]; simpl; rewrite andb_false_r; done.
Qed.

Lemma snapshot_rendering_witness :
  (exists d,
     render (Scenario.page_showing (Scenario.failed_job (js "LLM call failed")))
       = DetailView d
     /\ ResearchProgress.errorMessage (progressPanel d) = Some (js "LLM call failed"))
  /\ (exists d,
        render (Scenario.page_showing Scenario.running_job) = DetailView d
        /\ ResearchProgress.errorMessage (progressPanel d) = None
        /\ reportColumn d = InProgress (js "분석 진행 중입니다...") (js "research")).
Proof.
  split.
  - destruct (snapshot_rendering
                (Scenario.page_showing (Scenario.failed_job (js "LLM call failed")))
                (Scenario.failed_job (js "LLM call failed")) eq_refl)
      as [d [Hd [Hfail _]]].
    exists d. split; [exact Hd|].
    apply Hfail; [reflexivity | reflexivity | discriminate].
  - destruct (snapshot_rendering (Scenario.page_showing Scenario.running_job)
                Scenario.running_job eq_refl)
      as [d [Hd [_ Hrun]]].
    exists d. split; [exact Hd|].
    apply Hrun; [reflexivity | right; reflexivity].
Defined.

(** C1, as stated, fails for the empty string: the job is failed and its
    error is not null, yet the guard [error && ...] is falsy and the
    progress panel has no error block. *)
Lemma empty_error_counterexample :
  let r := Scenario.failed_job [] in
  status r = failed
  /\ Types.error r <> None
  /\ render (Scenario.page_showing r) = DetailView (detail (Scenario.page_showing r) r)
  /\ ResearchProgress.errorMessage
       (progressPanel (detail (Scenario.page_showing r) r)) = None.
Proof.
  simpl. repeat split; discriminate.
Qed.


(** *** The socket handlers *)

(** Once the socket has left [OPEN], no frame reaches the handler. *)
Lemma receive_all_not_open frames st :
  readyState st <> OPEN -> receive_all frames st = st.
Proof.
  intros H. induction frames as [|f frames IH]; [reflexivity|].
  assert (Hf : receive f st = st).
  { unfold receive. destruct (readyState st); congruence. }
  unfold receive_all in *. simpl. rewrite Hf. exact IH.
Qed.

Lemma ws_close_not_open st : readyState (ws_close st) <> OPEN.
Proof. simpl. destruct (readyState st); discriminate. Qed.

(** The state a [final] event leaves, field by field. *)
Lemma onmessage_final st s r e :
  let st' := onmessage (Some (WSFinalEvent s r e)) st in
  research st' = (fun prev => with_final prev s r e) <$> research st
  /\ loading st' = loading st
  /\ error st' = error st
  /\ wsConnected st' = wsConnected st
  /\ console st' = console st
  /\ readyState st' <> OPEN.
Proof.
  simpl. split; [destruct (research st); reflexivity|].
  do 4 (split; [reflexivity|]).
  destruct (readyState st); discriminate.
Qed.

(** C2: on a [final] event with a snapshot present, the handler replaces
    the snapshot's [status], [result] and [error] by those of the event,
    keeps its seven other fields and the rest of the page state, and
    closes the socket: [readyState] leaves [OPEN], and whatever frames
    arrive on that socket afterwards change nothing. *)
Theorem final_updates_and_closes (st : State) (prev : ResearchStatusResponse)
    (s : ResearchStatus) (r : option ResearchResult) (e : option jsstring) :
  research st = Some prev ->
  let st' := onmessage (Some (WSFinalEvent s r e)) st in
  (exists next, research st' = Some next
     /\ status next = s /\ result next = r /\ Types.error next = e
     /\ research_id next = research_id prev
     /\ topic next = topic prev
     /\ created_at next = created_at prev
     /\ started_at next = started_at prev
     /\ completed_at next = completed_at prev
     /\ current_stage next = current_stage prev
     /\ progress next = progress prev)
  /\ loading st' = loading st
  /\ error st' = error st
  /\ wsConnected st' = wsConnected st
  /\ console st' = console st
  /\ (readyState st = OPEN -> readyState st' = CLOSING)
  /\ readyState st' <> OPEN
  /\ forall frames, receive_all frames st' = st'.
Proof.
  intros Hprev st'.
  destruct (onmessage_final st s r e) as (Hres & Hl & He & Hw & Hc & Hrs).
  fold st' in Hres, Hl, He, Hw, Hc, Hrs. rewrite Hprev in Hres.
  split; [exists (with_final prev s r e); repeat split; exact Hres|].
  repeat (split; [assumption|]).
  split; [|split; [exact Hrs|]].
  - subst st'. simpl. by intros ->.
  - intros frames. by apply receive_all_not_open.
Qed.

Lemma final_updates_and_closes_witness :
  let st := Scenario.page_showing Scenario.running_job in
  let st' := receive (Some (WSFinalEvent completed (Some Scenario.finished_result) None)) st in
  (status <$> research st') = Some completed
  /\ readyState st' = CLOSING
  /\ receive_all [Some WSHeartbeatEvent; Some (WSUpdateEvent Scenario.running_job)] st' = st'.
Proof.
  intros st st'.
  destruct (final_updates_and_closes st Scenario.running_job completed
              (Some Scenario.finished_result) None eq_refl)
    as [[next [Hn [Hs _]]] (_ & _ & _ & _ & Hopen & _ & Hframes)].
  change (onmessage (Some (WSFinalEvent completed (Some Scenario.finished_result) None)) st)
    with st' in Hn, Hopen, Hframes.
  split; [by rewrite Hn; simpl; rewrite Hs|].
  split; [by apply Hopen | apply Hframes].
Defined.

(** The fields of the snapshot a [final] event leaves. *)
Lemma with_final_fields (prev : ResearchStatusResponse) (s : ResearchStatus)
    (r : option ResearchResult) (e : option jsstring) :
  status (with_final prev s r e) = s
  /\ result (with_final prev s r e) = r
  /\ Types.error (with_final prev s r e) = e
  /\ research_id (with_final prev s r e) = research_id prev
  /\ topic (with_final prev s r e) = topic prev
  /\ created_at (with_final prev s r e) = created_at prev
  /\ started_at (with_final prev s r e) = started_at prev
  /\ completed_at (with_final prev s r e) = completed_at prev
  /\ current_stage (with_final prev s r e) = current_stage prev
  /\ progress (with_final prev s r e) = progress prev.
Proof. repeat split. Qed.

(** C5: the [type] of an event is one of six distinct strings, each of
    them occurs, and [ws.onmessage] treats each:
    - [connected]: one console line, nothing else changes;
    - [current_state], [update]: the snapshot becomes the event's [data],
      nothing else changes;
    - [heartbeat]: nothing changes;
    - [final]: a snapshot that is present gets the event's [status],
      [result] and [error] and keeps its seven other fields (an absent one
      stays absent), the rest of the page state is kept, and the socket is
      closed: an open socket is closing afterwards, and in no case is the
      socket open;
    - [error]: the page's error message becomes the event's [message],
      nothing else changes. *)
Theorem every_event_type_is_handled :
  (forall ev, In (type ev) event_types)
  /\ NoDup event_types
  /\ (forall t, In t event_types -> exists ev, type ev = t)
  /\ (forall st id,
        let st' := onmessage (Some (WSConnectedEvent id)) st in
        console st' = console st ++ [log (js "WebSocket: connected") (Some id)]
        /\ research st' = research st /\ loading st' = loading st
        /\ error st' = error st /\ wsConnected st' = wsConnected st
        /\ readyState st' = readyState st)
  /\ (forall st ev d,
        ev = WSCurrentStateEvent d \/ ev = WSUpdateEvent d ->
        let st' := onmessage (Some ev) st in
        research st' = Some d
        /\ loading st' = loading st /\ error st' = error st
        /\ wsConnected st' = wsConnected st
        /\ readyState st' = readyState st /\ console st' = console st)
  /\ (forall st, onmessage (Some WSHeartbeatEvent) st = st)
  /\ (forall st s r e,
        let st' := onmessage (Some (WSFinalEvent s r e)) st in
        match research st with
        | Some prev =>
          exists next, research st' = Some next
            /\ status next = s /\ result next = r /\ Types.error next = e
            /\ research_id next = research_id prev
            /\ topic next = topic prev
            /\ created_at next = created_at prev
            /\ started_at next = started_at prev
            /\ completed_at next = completed_at prev
            /\ current_stage next = current_stage prev
            /\ progress next = progress prev
        | None => research st' = None
        end
        /\ loading st' = loading st
        /\ error st' = error st
        /\ wsConnected st' = wsConnected st
        /\ console st' = console st
        /\ (readyState st = OPEN -> readyState st' = CLOSING)
        /\ readyState st' <> OPEN)
  /\ (forall st m,
        let st' := onmessage (Some (WSErrorEvent m)) st in
        error st' = Some m
        /\ research st' = research st /\ loading st' = loading st
        /\ wsConnected st' = wsConnected st
        /\ readyState st' = readyState st /\ console st' = console st).
Proof.
  split; [intros []; simpl; tauto|].
  split; [apply (bool_decide_unpack _); by vm_compute|].
  split.
  { intros t Ht. simpl in Ht.
    pose (r := Scenario.running_job).
    destruct Ht as [<-|[<-|[<-|[<-|[<-|[<-|[]]]]]]];
      [ exists (WSConnectedEvent [])
      | exists (WSCurrentStateEvent r)
      | exists (WSUpdateEvent r)
      | exists WSHeartbeatEvent
      | exists (WSFinalEvent completed None None)
      | exists (WSErrorEvent []) ]; reflexivity. }
  split; [intros; repeat split|].
  split; [intros st ev d [-> | ->]; repeat split|].
  split; [reflexivity|].
  split; [|intros; repeat split].
  intros st s r e st'.
  destruct (onmessage_final st s r e) as (Hres & Hl & He & Hw & Hc & Hrs).
  fold st' in Hres, Hl, He, Hw, Hc, Hrs.
  split.
  { destruct (research st) as [prev|]; [|exact Hres].
    exists (with_final prev s r e). split; [exact Hres|].
    apply with_final_fields. }
  do 4 (split; [assumption|]).
  split; [|exact Hrs].
  subst st'. simpl. by intros ->.
Qed.

Lemma every_event_type_is_handled_witness :
  (exists ev, type ev = "final"%string)
  /\ research (onmessage (Some (WSUpdateEvent Scenario.running_job))
                         (Scenario.page_showing (Scenario.failed_job [])))
     = Some Scenario.running_job
  /\ readyState (onmessage (Some (WSFinalEvent completed
                                    (Some Scenario.finished_result) None))
                           (Scenario.page_showing Scenario.running_job))
     = CLOSING.
Proof.
  destruct every_event_type_is_handled
    as (_ & _ & Htypes & _ & Hdata & _ & Hfinal & _).
  split; [|split].
  - apply Htypes. simpl. tauto.
  - eapply Hdata. right. reflexivity.
  - apply (Hfinal (Scenario.page_showing Scenario.running_job)). reflexivity.
Defined.

(** C9: a [heartbeat] leaves the whole page state as it was (snapshot,
    error message, connection flag, socket, console), whether seen at the
    handler or at the socket, and however many arrive; what the page
    renders is unchanged too. *)
Theorem heartbeat_changes_nothing (st : State) (n : nat) :
  onmessage (Some WSHeartbeatEvent) st = st
  /\ receive (Some WSHeartbeatEvent) st = st
  /\ receive_all (repeat (Some WSHeartbeatEvent) n) st = st
  /\ render (receive (Some WSHeartbeatEvent) st) = render st.
Proof.
  assert (H1 : receive (Some WSHeartbeatEvent) st = st).
  { unfold receive. destruct (readyState st); reflexivity. }
  split; [reflexivity|]. split; [exact H1|]. split; [|by rewrite H1].
  induction n as [|n IH]; [reflexivity|].
  simpl. rewrite H1. exact IH.
Qed.

End Detail.

(** ** The topic queue *)
Section TopicQueueProperties.
Import TopicQueue.

Variable normalize : jsstring -> jsstring.

Local Abbreviation insert := (TopicQueue.insert normalize).
Local Abbreviation contains := (TopicQueue.contains normalize).
Local Abbreviation occurrences := (TopicQueue.occurrences normalize).
Local Abbreviation unique := (TopicQueue.unique normalize).
Local Abbreviation same_topic := (TopicQueue.same_topic normalize).
Local Abbreviation key := (TopicQueue.key normalize).

Lemma same_topic_iff t b : same_topic t b = true <-> key b = normalize t.
Proof.
  unfold TopicQueue.same_topic, jsstring_eqb.
  rewrite <- Is_true_true. apply bool_decide_spec.
Qed.

Lemma contains_iff q t :
  contains q t = true <-> In (normalize t) (List.map key q).
Proof.
  unfold TopicQueue.contains. rewrite existsb_exists, in_map_iff.
  split.
  - intros [b [Hin Hs]]. exists b. split; [by apply same_topic_iff | exact Hin].
  - intros [b [Hk Hin]]. exists b. split; [exact Hin | by apply same_topic_iff].
Qed.

Lemma contains_insert q t t' :
  normalize t' = normalize t -> contains (insert q t) t' = true.
Proof.
  intros Heq. unfold TopicQueue.insert.
  destruct (contains q t) eqn:E.
  - apply contains_iff. rewrite Heq. by apply contains_iff.
  - apply contains_iff. rewrite map_app, in_app_iff. right. simpl. left.
    unfold TopicQueue.key. simpl. congruence.
Qed.

Lemma unique_nil : unique [].
Proof. constructor. Qed.

Lemma unique_insert q t : unique q -> unique (insert q t).
Proof.
  unfold TopicQueue.unique, TopicQueue.insert. intros Hq.
  destruct (contains q t) eqn:E; [exact Hq|].
  rewrite map_app. simpl. apply NoDup_app. split; [exact Hq|].
  split; [|apply NoDup_singleton].
  intros x Hx Hx'. apply list_elem_of_singleton in Hx'. subst x.
  apply list_elem_of_In in Hx.
  assert (contains q t = true) by (by apply contains_iff).
  congruence.
Qed.

Lemma occurrences_absent q t : contains q t = false -> occurrences q t = 0%nat.
Proof.
  unfold TopicQueue.occurrences, TopicQueue.contains.
  induction q as [|b q IH]; simpl; [reflexivity|].
  destruct (same_topic t b); simpl; [discriminate|exact IH].
Qed.

Lemma occurrences_present q t :
  unique q -> contains q t = true -> occurrences q t = 1%nat.
Proof.
  unfold TopicQueue.unique.
  induction q as [|b q IH]; [discriminate|].
  intros Hnd Hc. rewrite map_cons in Hnd.
  apply NoDup_cons in Hnd as [Hnotin Hnd].
  change (same_topic t b || contains q t = true) in Hc.
  change (length (if same_topic t b
                  then b :: List.filter (same_topic t) q
                  else List.filter (same_topic t) q) = 1%nat).
  destruct (same_topic t b) eqn:Eb.
  - simpl. f_equal. apply occurrences_absent.
    destruct (contains q t) eqn:E; [|reflexivity].
    apply contains_iff in E. apply same_topic_iff in Eb.
    exfalso. apply Hnotin. apply list_elem_of_In. by rewrite Eb.
  - apply IH; [exact Hnd | exact Hc].
Qed.

Lemma occurrences_insert q t : unique q -> occurrences (insert q t) t = 1%nat.
Proof.
  intros Hq. apply occurrences_present; [by apply unique_insert|].
  by apply contains_insert.
Qed.

(** C8: in a queue whose normalised topics are unique, inserting a topic
    and then inserting it again (the same string, or any string with the
    same normalised text) gives the queue of the first insertion: the
    second insertion returns its argument unchanged, exactly one block
    carries that normalised text, and uniqueness holds after each
    insertion. *)
Theorem insert_twice_is_insert_once (q : list TopicBlock) (t : jsstring) :
  unique q ->
  insert (insert q t) t = insert q t
  /\ (forall t', normalize t' = normalize t -> insert (insert q t) t' = insert q t)
  /\ occurrences (insert (insert q t) t) t = 1%nat
  /\ unique (insert q t)
  /\ unique (insert (insert q t) t).
Proof.
  intros Hq.
  assert (Hdup : forall t', normalize t' = normalize t ->
                            insert (insert q t) t' = insert q t).
  { intros t' Heq. unfold TopicQueue.insert at 1.
    by rewrite contains_insert. }
  split; [by apply Hdup|]. split; [exact Hdup|].
  rewrite (Hdup t eq_refl).
  split; [by apply occurrences_insert|].
  split; by apply unique_insert.
Qed.

End TopicQueueProperties.

Lemma insert_twice_is_insert_once_witness :
  let q := TopicQueue.insert TopicQueue.normalize_topic [] (js " AAPL Outlook") in
  TopicQueue.insert TopicQueue.normalize_topic q (js "aapl outlook  ") = q
  /\ length q = 1%nat.
Proof.
  intros q. split; [|reflexivity].
  apply (insert_twice_is_insert_once TopicQueue.normalize_topic [] (js " AAPL Outlook")).
  - apply unique_nil.
  - reflexivity.
Defined.

(** ** The report viewer's markdown renderer *)
Section Markdown.
Import ReportViewer.

(** *** The renderer on small inputs *)

Example inline_markdown :
  renderInlineMarkdown (js "a **b** *c*") = js "a <strong>b</strong> <em>c</em>".
Proof. reflexivity. Qed.

Example inline_markdown_unbalanced :
  renderInlineMarkdown (js "2 * 3 ** 4") = js "2 <em> 3 </em>* 4".
Proof. reflexivity. Qed.

Example numbered_item :
  numberedMatch (js "12. first point") = Some (js "first point")
  /\ numberedMatch (js "12.first point") = None
  /\ numberedMatch (js "12. ") = None.
Proof. repeat split. Qed.

Example closed_fence_is_rendered :
  MarkdownRenderer (js "# Report" ++ [10] ++ js "```py" ++ [10] ++ js "x = 1"
                    ++ [10] ++ js "y = 2" ++ [10] ++ js "```" ++ [10] ++ js "- done")
  = [h1 0 (js "Report"); pre 4 (js "x = 1" ++ [10] ++ js "y = 2"); li 5 (js "done")].
Proof. reflexivity. Qed.

Example empty_report : MarkdownRenderer [] = [br 0].
Proof. reflexivity. Qed.

(** *** The fuel of the global replace never runs out *)

Lemma lazy_until_length d s g rest :
  lazy_until d s = Some (g, rest) -> (length rest <= length s)%nat.
Proof.
  revert g rest. induction s as [|c s IH]; intros g rest H.
  - cbn [lazy_until] in H. destruct (startsWith [] d); [|discriminate].
    injection H as _ <-. rewrite length_drop. lia.
  - cbn [lazy_until] in H.
    destruct (startsWith (c :: s) d).
    + injection H as _ <-. rewrite length_drop. lia.
    + destruct (is_line_terminator c); [discriminate|].
      destruct (lazy_until d s) as [[g' rest']|] eqn:E; [|discriminate].
      injection H as _ <-. specialize (IH _ _ eq_refl). simpl. lia.
Qed.

Lemma match_delimited_length d s g rest :
  match_delimited d s = Some (g, rest) -> (length rest < length s)%nat.
Proof.
  unfold match_delimited. intros H.
  destruct (startsWith s d); [|discriminate].
  destruct (drop (length d) s) as [|c s'] eqn:E; [discriminate|].
  destruct (is_line_terminator c); [discriminate|].
  destruct (lazy_until d s') as [[g' rest']|] eqn:El; [|discriminate].
  injection H as _ <-. apply lazy_until_length in El.
  apply (f_equal (@length N)) in E. rewrite length_drop in E. simpl in E. lia.
Qed.

Lemma replace_from_fuel f1 f2 d left right s :
  (length s < f1)%nat -> (length s < f2)%nat ->
  replace_from f1 d left right s = replace_from f2 d left right s.
Proof.
  revert f2 s. induction f1 as [|f1 IH]; intros f2 s H1 H2; [lia|].
  destruct f2 as [|f2]; [lia|]. simpl.
  destruct (match_delimited d s) as [[g rest]|] eqn:E.
  - apply match_delimited_length in E. do 3 f_equal. apply IH; lia.
  - destruct s as [|c s]; [reflexivity|]. simpl in *. f_equal. apply IH; lia.
Qed.

(** The replace, as the regular expression reads: at a match, the
    replacement and on after the match; otherwise one character on. *)
Lemma replace_delimited_step d left right s :
  replace_delimited d left right s =
    match match_delimited d s with
    | Some (g, rest) => left ++ g ++ right ++ replace_delimited d left right rest
    | None =>
      match s with
      | c :: s' => c :: replace_delimited d left right s'
      | [] => []
      end
    end.
Proof.
  unfold replace_delimited at 1. cbn [replace_from].
  destruct (match_delimited d s) as [[g rest]|] eqn:E.
  - apply match_delimited_length in E. do 3 f_equal.
    unfold replace_delimited. apply replace_from_fuel; lia.
  - destruct s as [|c s]; reflexivity.
Qed.

(** *** The scan of the lines *)

Lemma forEach_app l1 l2 i st :
  forEach (l1 ++ l2) i st = forEach l2 (i + length l1) (forEach l1 i st).
Proof.
  revert i st. induction l1 as [|a l1 IH]; intros i st; simpl.
  - by rewrite Nat.add_0_r.
  - rewrite IH. f_equal. lia.
Qed.

Lemma callback_settled st line i : settled st -> settled (callback st line i).
Proof.
  unfold settled, callback, push. intros H.
  repeat match goal with
         | |- context [if ?b then _ else _] => destruct b eqn:?
         | |- context [match ?o with Some _ => _ | None => _ end] => destruct o eqn:?
         end; simpl; auto; discriminate.
Qed.

Lemma forEach_settled lines i st : settled st -> settled (forEach lines i st).
Proof.
  revert i st. induction lines as [|l lines IH]; intros i st H; [exact H|].
  simpl. apply IH, callback_settled, H.
Qed.

(** Inside a code block, lines that are not fences only pile up. *)
Lemma forEach_inside lines i st :
  inCodeBlock st = true ->
  Forall (fun l => startsWith l fence = false) lines ->
  forEach lines i st =
    {| elements := elements st; inCodeBlock := true;
       codeContent := codeContent st ++ lines;
       codeLanguage := codeLanguage st |}.
Proof.
  revert i st. induction lines as [|l lines IH]; intros i st Hin Hall; simpl.
  - rewrite app_nil_r. destruct st; simpl in *. by subst.
  - apply Forall_cons in Hall as [Hl Hall].
    rewrite IH; [|unfold callback; by rewrite Hl, Hin|exact Hall].
    unfold callback. rewrite Hl, Hin. simpl. by rewrite <- app_assoc.
Qed.

(** A [pre] element is keyed by the index of the fence that closed it. *)
Lemma pre_keys_bounded lines i st :
  (forall k code, In (pre k code) (elements st) -> (k < i)%nat) ->
  forall k code, In (pre k code) (elements (forEach lines i st)) ->
                 (k < i + length lines)%nat.
Proof.
  revert i st. induction lines as [|l lines IH]; intros i st Hst k code Hin; simpl in *.
  - apply Hst in Hin. lia.
  - replace (i + S (length lines))%nat with (S i + length lines)%nat by lia.
    apply (fun H => IH (S i) (callback st l i) H k code Hin).
    clear -Hst. intros k code Hin.
    assert (Hpush : forall e, In (pre k code) (elements st ++ [e]) ->
                              (e = pre k code -> k = i) -> (k < S i)%nat).
    { intros e H He. apply in_app_iff in H as [H|[H|[]]].
      - apply Hst in H. lia.
      - apply He in H. lia. }
    unfold callback, push in Hin.
    repeat match type of Hin with
           | context [if ?b then _ else _] => destruct b
           | context [match ?o with Some _ => _ | None => _ end] => destruct o
           end; simpl in Hin;
      first [ apply Hst in Hin; lia
            | eapply Hpush; [exact Hin | congruence] ].
Qed.

(** C10: when the lines of a report are [before], then a fence line that
    opens a code block (the scan of [before] ends outside any block), then
    lines none of which starts with a fence, the renderer returns exactly
    the elements of [before]: the scan ends inside the block, with every
    line after the fence held in [codeContent] and never pushed. *)
Theorem unclosed_fence_drops_the_rest (content : jsstring)
    (before after : list jsstring) (opening : jsstring) :
  split 10 content = before ++ opening :: after ->
  startsWith opening fence = true ->
  inCodeBlock (forEach before 0 initial) = false ->
  Forall (fun l => startsWith l fence = false) after ->
  let final := forEach (split 10 content) 0 initial in
  MarkdownRenderer content = elements (forEach before 0 initial)
  /\ inCodeBlock final = true
  /\ codeContent final = after
  /\ (forall k code, In (pre k code) (MarkdownRenderer content) ->
        (k < length before)%nat).
Proof.
  intros Hsplit Hopen Hout Hafter final.
  assert (Hset : settled (forEach before 0 initial)).
  { apply forEach_settled. intros _. reflexivity. }
  assert (Hfinal : final =
    {| elements := elements (forEach before 0 initial); inCodeBlock := true;
       codeContent := after; codeLanguage := slice 3 opening |}).
  { subst final. rewrite Hsplit, forEach_app. simpl.
    rewrite forEach_inside; [| unfold callback; by rewrite Hopen, Hout | exact Hafter].
    unfold callback. rewrite Hopen, Hout. simpl. by rewrite (Hset Hout). }
  unfold MarkdownRenderer. fold final. rewrite Hfinal. simpl.
  repeat split.
  intros k code Hin.
  apply (fun H => pre_keys_bounded before 0%nat initial H k code Hin).
  intros ? ? [].
Qed.

Lemma unclosed_fence_drops_the_rest_witness :
  MarkdownRenderer (js "intro" ++ [10] ++ js "```py" ++ [10]
                    ++ js "x = 1" ++ [10] ++ js "y = 2")
  = [p 0 (js "intro")].
Proof.
  apply (unclosed_fence_drops_the_rest _ [js "intro"]
           [js "x = 1"; js "y = 2"] (js "```py"));
    [reflexivity | reflexivity | reflexivity |].
  repeat constructor.
Defined.

End Markdown.

(** * Further properties of the code *)

(** ** More on strings *)
Section MoreStrings.

Lemma trimStart_idem (s : jsstring) : trimStart (trimStart s) = trimStart s.
Proof.
  induction s as [|c s IH]; [reflexivity|].
  simpl. destruct (is_space c) eqn:E; [exact IH|].
  simpl. by rewrite E.
Qed.

Lemma trimStart_split (s : jsstring) :
  exists q, s = q ++ trimStart s /\ forallb is_space q = true.
Proof.
  induction s as [|c s [q [Hq Hs]]]; [by exists []|].
  simpl. destruct (is_space c) eqn:E.
  - exists (c :: q). simpl. rewrite E. split; [by f_equal|exact Hs].
  - by exists [].
Qed.

Lemma trimStart_keep (s : jsstring) :
  match s with [] => True | c :: _ => is_space c = false end ->
  trimStart s = s.
Proof. destruct s as [|c s]; [done|]. simpl. by intros ->. Qed.

Lemma trimStart_head_keep (s : jsstring) :
  match trimStart s with [] => True | c :: _ => is_space c = false end.
Proof.
  destruct (trimStart s) as [|c r] eqn:E; [done|].
  by apply trimStart_head in E.
Qed.

(** [trim] is a projection. *)
Lemma trim_idem (s : jsstring) : trim (trim s) = trim s.
Proof.
  unfold trim, trimEnd.
  set (t := trimStart s). set (u := trimStart (rev t)).
  assert (Hu : trimStart u = u) by apply trimStart_idem.
  assert (Hr : trimStart (rev u) = rev u).
  { apply trimStart_keep.
    destruct (trimStart_split (rev t)) as [q [Hq _]]. fold u in Hq.
    apply (f_equal (@rev N)) in Hq. rewrite rev_involutive, rev_app_distr in Hq.
    pose proof (trimStart_head_keep s) as Ht. fold t in Ht.
    destruct (rev u) as [|c r]; [done|].
    rewrite Hq in Ht. exact Ht. }
  rewrite Hr, rev_involutive, Hu. reflexivity.
Qed.

Lemma In_trimStart (c : N) (s : jsstring) : In c (trimStart s) -> In c s.
Proof.
  destruct (trimStart_split s) as [q [Hq _]]. intros H.
  rewrite Hq. apply in_or_app. by right.
Qed.

Lemma In_trim (c : N) (s : jsstring) : In c (trim s) -> In c s.
Proof.
  unfold trim, trimEnd. intros H.
  apply In_trimStart. apply in_rev. apply In_trimStart. by apply in_rev.
Qed.

(** [trim] only looks past the white space in front. *)
Lemma trim_space_cons (c : N) (s : jsstring) :
  is_space c = true -> trim (c :: s) = trim s.
Proof. intros H. unfold trim. simpl. by rewrite H. Qed.

Lemma split_nonempty (sep : N) (s : jsstring) : split sep s <> [].
Proof.
  destruct s as [|c s]; simpl; [done|].
  destruct (c =? sep); [done|]. by destruct (split sep s).
Qed.

Lemma split_cons_other (sep c : N) (s : jsstring) :
  c <> sep ->
  exists first rest, split sep s = first :: rest
                     /\ split sep (c :: s) = (c :: first) :: rest.
Proof.
  intros Hc. simpl. apply N.eqb_neq in Hc. rewrite Hc.
  destruct (split sep s) as [|first rest] eqn:E; [by apply split_nonempty in E|].
  by exists first, rest.
Qed.

(** A piece that holds no separator is split off whole. *)
Lemma split_app_sep (sep : N) (piece s : jsstring) :
  ~ In sep piece -> split sep (piece ++ sep :: s) = piece :: split sep s.
Proof.
  induction piece as [|c piece IH]; intros Hn.
  - simpl. by rewrite N.eqb_refl.
  - simpl. destruct (c =? sep) eqn:E.
    + apply N.eqb_eq in E. subst. exfalso. apply Hn. by left.
    + rewrite IH; [reflexivity|]. intros H. apply Hn. by right.
Qed.

Lemma split_no_sep (sep : N) (piece : jsstring) :
  ~ In sep piece -> split sep piece = [piece].
Proof.
  induction piece as [|c piece IH]; intros Hn; [reflexivity|].
  simpl. destruct (c =? sep) eqn:E.
  - apply N.eqb_eq in E. subst. exfalso. apply Hn. by left.
  - rewrite IH; [reflexivity|]. intros H. apply Hn. by right.
Qed.

Lemma split_pieces (sep : N) (s : jsstring) :
  Forall (fun piece => ~ In sep piece) (split sep s).
Proof.
  induction s as [|c s IH]; simpl.
  - constructor; [intros []|constructor].
  - destruct (c =? sep) eqn:E.
    + constructor; [intros []|exact IH].
    + destruct (split sep s) as [|first rest]; [repeat constructor; intros [H|[]]|].
      * subst. by rewrite N.eqb_refl in E.
      * apply Forall_cons in IH as [H1 H2]. constructor; [|exact H2].
        intros [H|H]; [subst; by rewrite N.eqb_refl in E | by apply H1].
Qed.

(** Joining the pieces with the separator gives the string back. *)
Lemma join_split (sep : N) (s : jsstring) : join [sep] (split sep s) = s.
Proof.
  induction s as [|c s IH]; [reflexivity|].
  simpl. destruct (c =? sep) eqn:E.
  - apply N.eqb_eq in E. subst.
    destruct (split sep s) as [|first rest] eqn:Es; [by apply split_nonempty in Es|].
    change (join [sep] ([] :: first :: rest)) with ([sep] ++ join [sep] (first :: rest)).
    by rewrite IH.
  - destruct (split sep s) as [|first rest] eqn:Es; [by apply split_nonempty in Es|].
    destruct rest as [|second rest].
    + simpl in *. by rewrite IH.
    + change (join [sep] ((c :: first) :: second :: rest))
        with (c :: first ++ [sep] ++ join [sep] (second :: rest)).
      change (join [sep] (first :: second :: rest))
        with (first ++ [sep] ++ join [sep] (second :: rest)) in IH.
      by rewrite IH.
Qed.

End MoreStrings.

Lemma status_labels_total_aux (s : Types.ResearchStatus) :
  exists l, ResearchPage.getStatusLabel s = Some l.
Proof. destruct s; eexists; reflexivity. Qed.

(** ** The list page, further *)
Section ListPageMore.
Import Types ResearchPage ListRows Notions.

Lemma symbols_of_piece (piece s : jsstring) :
  ~ In 44 piece ->
  symbols_of (piece ++ 44 :: s) = List.filter truthy [trim piece] ++ symbols_of s.
Proof.
  intros H. unfold symbols_of. rewrite split_app_sep by exact H.
  simpl. by destruct (truthy (trim piece)).
Qed.

Lemma symbols_of_last (piece : jsstring) :
  ~ In 44 piece -> symbols_of piece = List.filter truthy [trim piece].
Proof.
  intros H. unfold symbols_of. by rewrite split_no_sep.
Qed.

Lemma symbols_of_space (s : jsstring) : symbols_of (32 :: s) = symbols_of s.
Proof.
  unfold symbols_of.
  destruct (split_cons_other 44 32 s) as [first [rest [-> ->]]]; [done|].
  simpl. by rewrite (trim_space_cons 32 first).
Qed.

(** X1: every ticker [handleSubmit] sends is clean: not empty, with no
    white space around it and no comma in it, whatever was typed into the
    symbol input. *)
Theorem symbols_are_clean (input : jsstring) :
  Forall clean_symbol (symbols_of input).
Proof.
  unfold symbols_of. apply Forall_forall. intros x Hx.
  apply list_elem_of_In, filter_In in Hx as [Hx Ht].
  apply in_map_iff in Hx as [piece [<- Hp]].
  split; [by destruct (trim piece)|]. split; [apply trim_idem|].
  intros Hc. apply In_trim in Hc.
  pose proof (split_pieces 44 input) as Hall.
  rewrite Forall_forall in Hall. apply (Hall piece); [by apply list_elem_of_In|exact Hc].
Qed.

(** X2: a list of clean tickers typed with [", "] (or just [","]) between
    them is read back as that very list. *)
Theorem symbols_round_trip (l : list jsstring) :
  Forall clean_symbol l ->
  symbols_of (join (js ", ") l) = l /\ symbols_of (join (js ",") l) = l.
Proof.
  assert (Hone : forall a, clean_symbol a -> List.filter truthy [trim a] = [a]).
  { intros a (Hne & Ht & _). rewrite Ht. by destruct a. }
  induction l as [|a l IH]; intros H; [split; reflexivity|].
  apply Forall_cons in H as [Ha Hl]. destruct (IH Hl) as [IH1 IH2].
  pose proof Ha as (_ & _ & Hc).
  destruct l as [|b l].
  - simpl. rewrite symbols_of_last by exact Hc. split; by apply Hone.
  - split.
    + change (join (js ", ") (a :: b :: l))
        with (a ++ 44 :: 32 :: join (js ", ") (b :: l)).
      rewrite symbols_of_piece by exact Hc.
      rewrite symbols_of_space, IH1. by rewrite Hone.
    + change (join (js ",") (a :: b :: l))
        with (a ++ 44 :: join (js ",") (b :: l)).
      rewrite symbols_of_piece by exact Hc.
      rewrite IH2. by rewrite Hone.
Qed.

Lemma symbols_round_trip_witness :
  symbols_of (js "AAPL, MSFT, 005930") = [js "AAPL"; js "MSFT"; js "005930"].
Proof.
  apply (symbols_round_trip [js "AAPL"; js "MSFT"; js "005930"]).
  do 3 (constructor;
        [split; [discriminate
                | split; [reflexivity | vm_compute; intuition discriminate]]|]).
  constructor.
Defined.

Lemma prefilled_topic_not_blank (s : jsstring) :
  trim (s ++ js " 종목 분석 및 투자 전망") <> [].
Proof.
  intros H. apply trim_nil_iff in H. rewrite forallb_app in H.
  apply andb_true_iff in H as [_ H]. vm_compute in H. discriminate.
Qed.

(** X3: a non-empty [symbol] parameter in the URL opens the form with the
    symbol in the symbol input and a prefilled topic, and the form can be
    submitted as it stands: the button is enabled and [handleSubmit] sends
    a request whose symbols are read from the parameter.  Without the
    parameter the form is closed, the topic empty and the button
    disabled. *)
Theorem url_symbol_prefills_the_form (s : jsstring) (market : option jsstring) :
  s <> [] ->
  (let st := initial (Some s) market in
   showNewForm st = true
   /\ symbolInput st = s
   /\ formData st !! "topic" = Some (VStr (s ++ js " 종목 분석 및 투자 전망"))
   /\ submitDisabled st = Some false
   /\ exists st' request,
        handleSubmit st = Returned st' (Some request)
        /\ request !! "symbols" = Some (VArr (symbols_of s)))
  /\ (let st := initial None market in
      showNewForm st = false
      /\ formData st !! "topic" = Some (VStr [])
      /\ submitDisabled st = Some true
      /\ handleSubmit st = Returned st None).
Proof.
  intros Hs. split.
  - assert (Htopic : formData (initial (Some s) market) !! "topic"
                     = Some (VStr (s ++ js " 종목 분석 및 투자 전망"))).
    { unfold initial. simpl. destruct s; [done|]. apply lookup_insert_eq. }
    pose proof (prefilled_topic_not_blank s) as Hnb.
    split; [by destruct s|]. split; [reflexivity|]. split; [exact Htopic|].
    split.
    + unfold submitDisabled. rewrite Htopic. simpl.
      by destruct (trim (s ++ js " 종목 분석 및 투자 전망")).
    + unfold handleSubmit. rewrite Htopic.
      destruct (trim (s ++ js " 종목 분석 및 투자 전망")) eqn:E; [done|].
      simpl. eexists _, _. split; [reflexivity|]. apply lookup_insert_eq.
  - repeat split.
Qed.

Lemma url_symbol_prefills_the_form_witness :
  submitDisabled (initial (Some (js "AAPL")) (Some (js "US"))) = Some false.
Proof.
  apply (url_symbol_prefills_the_form (js "AAPL") (Some (js "US"))).
  discriminate.
Defined.

(** X4: once [handleSubmit] has sent a request, the page is submitting
    with its error cleared and the button disabled, the form unchanged.
    When the call answers with an error, the error is shown, submitting
    ends and the button is enabled again, with no navigation; when it
    answers with data, the page navigates to [/research/<id>] and nothing
    else changes; when it answers with neither, nothing changes at all:
    the page stays submitting. *)
Theorem submission_cycle (st st' : State) (request : gmap string value) :
  handleSubmit st = Returned st' (Some request) ->
  submitting st' = true /\ error st' = None
  /\ formData st' = formData st /\ symbolInput st' = symbolInput st
  /\ submitDisabled st' = Some true
  /\ (forall e data, e <> [] ->
        let back := handleSubmit_resume data (Some e) st' in
        snd back = None
        /\ submitting (fst back) = false /\ error (fst back) = Some e
        /\ formData (fst back) = formData st
        /\ submitDisabled (fst back) = Some false)
  /\ (forall d,
        handleSubmit_resume (Some d) None st'
        = (st', Some (js "/research/" ++ response_id d)))
  /\ handleSubmit_resume None None st' = (st', None).
Proof.
  intros H. pose proof (handleSubmit_request _ _ _ H) as [_ [t [Ht Hnb]]].
  unfold handleSubmit in H. rewrite Ht in H.
  destruct (trim t) as [|c r] eqn:E; [done|]. simpl in H.
  injection H as <- _.
  do 5 (split; [reflexivity|]).
  split; [|split; reflexivity].
  intros e data He. destruct e as [|a e]; [done|]. simpl.
  do 4 (split; [reflexivity|]).
  unfold submitDisabled. simpl. by rewrite Ht, E.
Qed.

Lemma submission_cycle_witness :
  exists st' request,
    handleSubmit (run [ChangeTopic (js "AAPL outlook")] (initial None None))
      = Returned st' (Some request)
    /\ submitDisabled st' = Some true
    /\ error (fst (handleSubmit_resume None (Some (js "HTTP 500")) st'))
       = Some (js "HTTP 500").
Proof.
  eexists _, _. split; [reflexivity|].
  destruct (submission_cycle
              (run [ChangeTopic (js "AAPL outlook")] (initial None None)) _ _ eq_refl)
    as (_ & _ & _ & _ & Hd & Herr & _).
  split; [exact Hd|]. apply (Herr (js "HTTP 500") None). discriminate.
Defined.

Lemma handle_symbols ev st :
  formData (handle ev st) !! "symbols" = formData st !! "symbols".
Proof.
  destruct ev; simpl; try reflexivity; try (by rewrite lookup_insert_ne).
  - unfold handleSubmit. destruct (formData st !! "topic") as [[t|n|l]|]; try reflexivity.
    by destruct (negb (truthy (trim t))).
  - unfold handleSubmit_resume. destruct (truthy_opt err); [reflexivity|].
    by destruct data.
  - unfold fetchResearches. destruct (truthy_opt err); [reflexivity|].
    by destruct data.
Qed.

Lemma run_symbols events st :
  formData (run events st) !! "symbols" = formData st !! "symbols".
Proof.
  revert st. induction events as [|ev events IH]; intros st; [reflexivity|].
  simpl. fold (run events (handle ev st)). by rewrite IH, handle_symbols.
Qed.

(** X5: the tickers of a request come from the symbol input alone.  No
    handler ever writes the [symbols] property of [formData], which stays
    the empty list; [handleSubmit] replaces it in the request by the
    tickers read from the input and sends every other property as the form
    holds it. *)
Theorem symbols_come_from_the_input symbol market events :
  let st := run events (initial symbol market) in
  formData st !! "symbols" = Some (VArr [])
  /\ forall st' request,
       handleSubmit st = Returned st' (Some request) ->
       request !! "symbols" = Some (VArr (symbols_of (symbolInput st)))
       /\ forall k, k <> "symbols"%string -> request !! k = formData st !! k.
Proof.
  intros st. split.
  - subst st. rewrite run_symbols. unfold initial. simpl.
    by rewrite lookup_insert_ne, lookup_insert_eq.
  - intros st' request H. apply handleSubmit_request in H as [-> _].
    split; [apply lookup_insert_eq|]. intros k Hk. by rewrite lookup_insert_ne.
Qed.

Lemma symbols_come_from_the_input_witness :
  exists st' request,
    handleSubmit (run [ChangeTopic (js "chips"); ChangeSymbolInput (js "NVDA,AMD")]
                      (initial None None)) = Returned st' (Some request)
    /\ request !! "symbols" = Some (VArr [js "NVDA"; js "AMD"])
    /\ request !! "market" = Some (VStr (js "US")).
Proof.
  eexists _, _. split; [reflexivity|].
  destruct (symbols_come_from_the_input None None
              [ChangeTopic (js "chips"); ChangeSymbolInput (js "NVDA,AMD")])
    as [_ H].
  destruct (H _ _ eq_refl) as [Hs Hk].
  split; [exact Hs|]. by rewrite Hk.
Defined.

(** X6: the five statuses are told apart by icon and colour (the two that
    share an icon differ in colour), every row has a status label, and a
    row has the cancel button exactly when the detail page of a job in
    the same status has one. *)
Theorem rows_by_status :
  NoDup (List.map getStatusIcon all_statuses)
  /\ forall (item : ResearchListItem) (st : DetailPage.State)
            (r : ResearchStatusResponse),
       status r = item_status item ->
       is_Some (row_label (row item))
       /\ row_cancel (row item) = DetailPage.cancelButton (DetailPage.detail st r).
Proof.
  split.
  { unfold all_statuses. simpl.
    repeat (apply NoDup_cons_2;
            [intros H; repeat (apply elem_of_cons in H as [H|H]; [discriminate|]);
             by apply elem_of_nil in H|]).
    apply NoDup_nil_2. }
  intros item st r Hs. simpl. unfold DetailPage.isActive. rewrite Hs.
  split; [|reflexivity].
  destruct (status_labels_total_aux (item_status item)) as [l Hl]. by exists l.
Qed.

Lemma rows_by_status_witness :
  row_cancel (row {| item_id := js "pipeline_abc123";
                     item_topic := js "AAPL quick check";
                     item_status := running;
                     item_created_at := js "2026-01-20T09:00:00";
                     item_completed_at := None |}) = true.
Proof.
  destruct rows_by_status as [_ H].
  destruct (H {| item_id := js "pipeline_abc123";
                 item_topic := js "AAPL quick check";
                 item_status := running;
                 item_created_at := js "2026-01-20T09:00:00";
                 item_completed_at := None |}
              (Scenario.page_showing Scenario.running_job)
              Scenario.running_job eq_refl) as [_ ->].
  reflexivity.
Defined.

End ListPageMore.

(** ** The detail page, further *)
Section DetailPageMore.
Import Types DetailPage DetailEffects.

(** X7: the effect opens a socket exactly for a job that is pending or
    running, that is, exactly when the page shows the cancel button; it
    opens none without snapshot.  After a [final] event the guard holds
    only if the event's status is itself pending or running: a job that
    ended is not connected to again. *)
Theorem socket_follows_activity (st : State) (r : ResearchStatusResponse)
    (s : ResearchStatus) (res : option ResearchResult) (e : option jsstring) :
  opensSocket None = false
  /\ opensSocket (Some r) = isActive r
  /\ cancelButton (detail st r) = opensSocket (Some r)
  /\ opensSocket (research (onmessage (Some (WSFinalEvent s res e)) st))
     = match research st with
       | Some _ => status_eqb s pending || status_eqb s running
       | None => false
       end.
Proof.
  split; [reflexivity|].
  assert (H : opensSocket (Some r) = isActive r).
  { unfold opensSocket, isActive. by destruct (status r). }
  split; [exact H|]. split; [by rewrite H|].
  simpl. destruct (research st); [|reflexivity]. simpl. by destruct s.
Qed.

(** X8: the cleanup of the effect closes the socket only when it is open.
    An open socket is closed and handles no frame afterwards; any other is
    left as it is, so a socket that was still connecting goes on to open,
    and its frames are handled as if there had been no cleanup. *)
Theorem cleanup_closes_an_open_socket_only (st : State) :
  (readyState st = OPEN ->
     readyState (cleanup st) = CLOSING
     /\ forall frames, receive_all frames (cleanup st) = cleanup st)
  /\ (readyState st <> OPEN -> cleanup st = st)
  /\ (readyState st = CONNECTING ->
        forall frame, receive frame (opened (cleanup st)) = onmessage frame (opened st)).
Proof.
  unfold cleanup. split; [|split].
  - intros H. rewrite H. split; [simpl; by rewrite H|].
    intros frames. apply receive_all_not_open, ws_close_not_open.
  - intros H. by destruct (readyState st).
  - intros H frame. rewrite H. reflexivity.
Qed.

Lemma cleanup_closes_an_open_socket_only_witness :
  let st := Scenario.page_showing Scenario.running_job in
  readyState (cleanup st) = CLOSING
  /\ receive_all [Some (WSUpdateEvent (Scenario.failed_job (js "late")))] (cleanup st)
     = cleanup st
  /\ cleanup (set_readyState CLOSED st) = set_readyState CLOSED st
  /\ receive (Some WSHeartbeatEvent) (opened (cleanup (set_readyState CONNECTING st)))
     = onmessage (Some WSHeartbeatEvent) (opened (set_readyState CONNECTING st)).
Proof.
  intros st.
  destruct (cleanup_closes_an_open_socket_only st) as [Hopen _].
  destruct (Hopen eq_refl) as [Hc Hf].
  destruct (cleanup_closes_an_open_socket_only (set_readyState CLOSED st))
    as (_ & Hother & _).
  destruct (cleanup_closes_an_open_socket_only (set_readyState CONNECTING st))
    as (_ & _ & Hconn).
  split; [exact Hc|]. split; [apply Hf|].
  split; [by apply Hother | by apply Hconn].
Defined.

(** X9: a refresh that fails keeps the snapshot: the page still renders
    the detail view of the job it showed, now with the error in the
    banner, and is no longer loading.  A refresh that succeeds replaces the
    snapshot and leaves an error set earlier in place.  When the very first
    load fails, the page is the bare error message. *)
Theorem refresh_keeps_the_snapshot (st : State) (r : ResearchStatusResponse)
    (data : option ResearchStatusResponse) (e : jsstring) :
  research st = Some r ->
  e <> [] ->
  (let st' := fetchResearch data (Some e) st in
   research st' = Some r /\ loading st' = false
   /\ exists d, render st' = DetailView d
                /\ errorBanner d = Some e
                /\ heading d = heading (detail st r)
                /\ progressPanel d = progressPanel (detail st r)
                /\ reportColumn d = reportColumn (detail st r))
  /\ (forall d, let st' := fetchResearch (Some d) None st in
                research st' = Some d /\ error st' = error st /\ loading st' = false)
  /\ (forall st0, research st0 = None ->
                  render (fetchResearch None (Some e) st0) = ErrorOnly e).
Proof.
  intros Hr He. destruct e as [|c e]; [done|].
  split; [|split].
  - unfold fetchResearch. simpl. split; [exact Hr|]. split; [reflexivity|].
    unfold render. simpl. rewrite Hr. eexists. split; [reflexivity|].
    by repeat split.
  - by intros d.
  - intros st0 H0. unfold fetchResearch, render. simpl. by rewrite H0.
Qed.

Lemma refresh_keeps_the_snapshot_witness :
  exists d,
    render (fetchResearch None (Some (js "HTTP 502"))
              (Scenario.page_showing Scenario.running_job)) = DetailView d
    /\ errorBanner d = Some (js "HTTP 502")
    /\ heading d = js "AAPL quick check".
Proof.
  destruct (refresh_keeps_the_snapshot
              (Scenario.page_showing Scenario.running_job) Scenario.running_job
              None (js "HTTP 502") eq_refl) as [(_ & _ & d & Hd & Hb & Hh & _) _];
    [discriminate|].
  exists d. split; [exact Hd|]. split; [exact Hb|]. by rewrite Hh.
Defined.

(** X10: what the handler [ws.onmessage] itself updates, event by event.
    (The socket effect depends on [research?.status]; its re-run when that
    changes is React's doing and no part of the handler.)  The handler
    never sets the loading flag or the connection flag; it closes the
    socket on a [final] event only; it sets the error message on an
    [error] event only, so no snapshot update clears it.  [connected],
    [heartbeat] and [error] events and a frame that does not parse leave
    the snapshot as it is, and with it the dependency of the effect; a
    frame that does not parse only adds a line to the console.  After
    [current_state] or [update] the dependency is the status of the
    event's [data]. *)
Theorem handler_updates_by_event (st : State) (frame : option WSEvent) :
  let st' := onmessage frame st in
  loading st' = loading st
  /\ wsConnected st' = wsConnected st
  /\ ((forall s r e, frame <> Some (WSFinalEvent s r e)) -> readyState st' = readyState st)
  /\ ((forall m, frame <> Some (WSErrorEvent m)) -> error st' = error st)
  /\ ((forall s r e, frame <> Some (WSFinalEvent s r e)) ->
      (forall d, frame <> Some (WSCurrentStateEvent d)) ->
      (forall d, frame <> Some (WSUpdateEvent d)) ->
      research st' = research st
      /\ effect_dependency st' = effect_dependency st)
  /\ (forall d, frame = Some (WSCurrentStateEvent d) \/ frame = Some (WSUpdateEvent d) ->
                effect_dependency st' = Some (status d))
  /\ (frame = None ->
      console st' = console st ++ [log_error (js "WebSocket message parse error:")]
      /\ readyState st' = readyState st /\ error st' = error st
      /\ render st' = render st).
Proof.
  intros st'. subst st'.
  split; [by destruct frame as [[]|]|].
  split; [by destruct frame as [[]|]|].
  split.
  { destruct frame as [[id|d|d| |s r e|m]|]; try done.
    intros H. by destruct (H s r e). }
  split.
  { destruct frame as [[id|d|d| |s r e|m]|]; try done.
    intros H. by destruct (H m). }
  split.
  { intros Hfinal Hcurrent Hupdate.
    destruct frame as [[id|d|d| |s r e|m]|]; try done.
    - by destruct (Hcurrent d).
    - by destruct (Hupdate d).
    - by destruct (Hfinal s r e). }
  split.
  { by intros d [-> | ->]. }
  by intros ->.
Qed.

Lemma handler_updates_by_event_witness :
  let st := Scenario.page_showing (Scenario.failed_job (js "boom")) in
  error (onmessage (Some (WSUpdateEvent Scenario.running_job))
           (onmessage (Some (WSErrorEvent (js "stream lost"))) st))
  = Some (js "stream lost")
  /\ effect_dependency (onmessage (Some (WSUpdateEvent Scenario.running_job)) st)
     = Some running
  /\ effect_dependency (onmessage (Some WSHeartbeatEvent) st) = Some failed.
Proof.
  intros st.
  destruct (handler_updates_by_event
              (onmessage (Some (WSErrorEvent (js "stream lost"))) st)
              (Some (WSUpdateEvent Scenario.running_job))) as (_ & _ & _ & He & _).
  destruct (handler_updates_by_event st (Some (WSUpdateEvent Scenario.running_job)))
    as (_ & _ & _ & _ & _ & Hdep & _).
  destruct (handler_updates_by_event st (Some WSHeartbeatEvent))
    as (_ & _ & _ & _ & Hsame & _).
  split; [rewrite He; [reflexivity | discriminate]|].
  split; [apply (Hdep Scenario.running_job); by right|].
  destruct Hsame as [_ ->]; [discriminate..|reflexivity].
Defined.

Lemma receive_all_app frames1 frames2 st :
  receive_all (frames1 ++ frames2) st = receive_all frames2 (receive_all frames1 st).
Proof. unfold receive_all. apply fold_left_app. Qed.

Lemma receive_final_not_open st s r e :
  readyState (receive (Some (WSFinalEvent s r e)) st) <> OPEN.
Proof.
  unfold receive. destruct (readyState st) eqn:E; try (rewrite E; discriminate).
  apply onmessage_final.
Qed.

(** X11: whatever arrives on the socket after a [final] frame is ignored:
    a stream and the same stream cut after its first [final] leave the
    page in the same state. *)
Theorem nothing_after_final (st : State) (before after : list (option WSEvent))
    (s : ResearchStatus) (r : option ResearchResult) (e : option jsstring) :
  receive_all (before ++ Some (WSFinalEvent s r e) :: after) st
  = receive_all (before ++ [Some (WSFinalEvent s r e)]) st.
Proof.
  rewrite !receive_all_app.
  change (receive_all (Some (WSFinalEvent s r e) :: after) (receive_all before st))
    with (receive_all after
            (receive (Some (WSFinalEvent s r e)) (receive_all before st))).
  change (receive_all [Some (WSFinalEvent s r e)] (receive_all before st))
    with (receive (Some (WSFinalEvent s r e)) (receive_all before st)).
  apply receive_all_not_open, receive_final_not_open.
Qed.

End DetailPageMore.

(** ** The stage list of the progress panel *)
Section StagesMore.
Import Types JSLib Stages Picture.

Variable toLowerCase : jsstring -> jsstring.
Variable inherited : jsstring -> bool.

Lemma findIndex_from_range {A : Type} (f : A -> bool) (l : list A) (i : Z) :
  findIndex_from f l i = (-1)%Z
  \/ (i <= findIndex_from f l i < i + Z.of_nat (length l))%Z.
Proof.
  revert i. induction l as [|x l IH]; intros i; simpl; [by left|].
  destruct (f x); [right; lia|].
  destruct (IH (i + 1)%Z) as [H|H]; [by left | right; lia].
Qed.

Lemma currentIdx_range (cs : option jsstring) :
  (-1 <= currentIdx toLowerCase cs <= 4)%Z.
Proof.
  unfold currentIdx, findIndex.
  match goal with
  | |- context [findIndex_from ?f ?l ?i] =>
    destruct (findIndex_from_range f l i) as [H|H]
  end; [rewrite H; lia|].
  change (Z.of_nat (length STAGES)) with 5%Z in H. lia.
Qed.

Lemma stageStatuses_by_index (status : ResearchStatus) (cs : option jsstring) :
  stageStatuses toLowerCase status cs
  = List.map
      (fun j =>
         if status_eqb status failed then
           if (j <? currentIdx toLowerCase cs)%Z then stage_completed
           else if (j =? currentIdx toLowerCase cs)%Z then stage_failed
           else stage_pending
         else if status_eqb status completed then stage_completed
         else if status_eqb status pending then stage_pending
         else if (j <? currentIdx toLowerCase cs)%Z then stage_completed
         else if (j =? currentIdx toLowerCase cs)%Z then stage_running
         else stage_pending)
      [0; 1; 2; 3; 4]%Z.
Proof. reflexivity. Qed.

Lemma stageStatuses_picture (status : ResearchStatus) (cs : option jsstring) :
  stageStatuses toLowerCase status cs
  = match status with
    | completed => repeat stage_completed 5
    | pending => repeat stage_pending 5
    | failed => stage_picture stage_failed (currentIdx toLowerCase cs)
    | running | cancelled =>
      stage_picture stage_running (currentIdx toLowerCase cs)
    end.
Proof.
  pose proof (currentIdx_range cs) as Hc.
  rewrite stageStatuses_by_index.
  remember (currentIdx toLowerCase cs) as c eqn:E. clear E.
  assert (Hcases : c = (-1)%Z \/ c = 0%Z \/ c = 1%Z \/ c = 2%Z \/ c = 3%Z \/ c = 4%Z)
    by lia.
  destruct status; try reflexivity;
    destruct Hcases as [->|[->|[->|[->|[->| ->]]]]]; reflexivity.
Qed.

(** X12: the five stages always read: completed up to the current stage,
    the current stage marked, pending after it.  A completed job has all
    five completed, a pending job all five pending.  A failed job marks its
    current stage failed, a running job running, and a cancelled job is
    drawn like a running one.  When [current_stage] names no stage (or is
    null), all five are pending, also for a failed job. *)
Theorem stage_list_picture (status : ResearchStatus) (cs : option jsstring) :
  (-1 <= currentIdx toLowerCase cs <= 4)%Z
  /\ stageStatuses toLowerCase status cs
     = match status with
       | completed => repeat stage_completed 5
       | pending => repeat stage_pending 5
       | failed => stage_picture stage_failed (currentIdx toLowerCase cs)
       | running | cancelled =>
         stage_picture stage_running (currentIdx toLowerCase cs)
       end.
Proof.
  split; [apply currentIdx_range | apply stageStatuses_picture].
Qed.

Lemma filter_map_length {A B : Type} (f : A -> B) (q : B -> bool) (l : list A) :
  length (List.filter (fun x => q (f x)) l) = length (List.filter q (List.map f l)).
Proof.
  induction l as [|x l IH]; [reflexivity|]. simpl.
  destruct (q (f x)); simpl; by rewrite IH.
Qed.

Lemma completedCount_value (status : ResearchStatus) (cs : option jsstring) :
  completedCount toLowerCase status cs
  = match status with
    | completed => 5%nat
    | pending => 0%nat
    | _ => Z.to_nat (Z.max 0 (currentIdx toLowerCase cs))
    end.
Proof.
  unfold completedCount.
  rewrite (filter_map_length
             (fun stage => getStageStatus toLowerCase status cs (id stage))
             (fun x => stage_status_eqb x stage_completed)).
  change (List.map (fun stage => getStageStatus toLowerCase status cs (id stage)) STAGES)
    with (stageStatuses toLowerCase status cs).
  rewrite stageStatuses_picture.
  pose proof (currentIdx_range cs) as Hc.
  remember (currentIdx toLowerCase cs) as c eqn:E. clear E.
  assert (Hcases : c = (-1)%Z \/ c = 0%Z \/ c = 1%Z \/ c = 2%Z \/ c = 3%Z \/ c = 4%Z)
    by lia.
  destruct status; try reflexivity;
    destruct Hcases as [->|[->|[->|[->|[->| ->]]]]]; reflexivity.
Qed.

(** X13: the progress bar counts the stages before the current one; it
    shows all five (100 %) for a completed job and for no other, and none
    for a pending job. *)
Theorem completed_count (status : ResearchStatus) (cs : option jsstring) :
  completedCount toLowerCase status cs
  = match status with
    | completed => 5%nat
    | pending => 0%nat
    | _ => Z.to_nat (Z.max 0 (currentIdx toLowerCase cs))
    end
  /\ (completedCount toLowerCase status cs = 5%nat <-> status = completed).
Proof.
  split; [apply completedCount_value|]. rewrite completedCount_value.
  pose proof (currentIdx_range cs) as Hc.
  destruct status; split; intros Hs; try done; lia.
Qed.

(** X14: when [current_stage], lower-cased, is the id of a stage, that
    stage is the current one: it is the one marked running (failed for a
    failed job), and as many stages are counted completed as precede
    it. *)
Theorem named_stage_is_current (cs : jsstring) (k : nat) (stage : StageInfo) :
  STAGES !! k = Some stage ->
  toLowerCase cs = id stage ->
  currentIdx toLowerCase (Some cs) = Z.of_nat k
  /\ getStageStatus toLowerCase running (Some cs) (id stage) = stage_running
  /\ getStageStatus toLowerCase failed (Some cs) (id stage) = stage_failed
  /\ completedCount toLowerCase running (Some cs) = k.
Proof.
  intros Hk Hl.
  assert (Hidx : currentIdx toLowerCase (Some cs) = Z.of_nat k
                 /\ stageIdx (id stage) = Z.of_nat k).
  { unfold currentIdx. rewrite Hl.
    do 5 (destruct k as [|k]; [injection Hk as <-; split; reflexivity|]).
    discriminate. }
  destruct Hidx as [Hc Hs].
  split; [exact Hc|].
  unfold getStageStatus. rewrite Hc, Hs, Z.ltb_irrefl, Z.eqb_refl. simpl.
  split; [reflexivity|]. split; [reflexivity|].
  rewrite completedCount_value, Hc. lia.
Qed.

End StagesMore.

Lemma named_stage_is_current_witness :
  Stages.currentIdx Picture.ascii_lower (Some (js "Research")) = 2%Z
  /\ Stages.getStageStatus Picture.ascii_lower Types.running (Some (js "Research"))
       (js "research") = Stages.stage_running
  /\ Stages.completedCount Picture.ascii_lower Types.running (Some (js "Research"))
     = 2%nat.
Proof.
  destruct (named_stage_is_current Picture.ascii_lower (js "Research") 2
              {| Stages.id := js "research"; Stages.label := js "데이터 수집";
                 Stages.description := js "주가, 재무, 뉴스 데이터를 수집합니다" |}
              eq_refl eq_refl) as (H1 & H2 & _ & H4).
  split; [exact H1|]. split; [exact H2 | exact H4].
Defined.

(** ** The event labels of the progress panel *)
Section EventLabels.
Import Types JSLib Stages Picture.

Variable toLowerCase : jsstring -> jsstring.
Variable inherited : jsstring -> bool.

Lemma own_In (k : jsstring) (o : list (jsstring * jsstring)) (v : jsstring) :
  own k o = Some v -> In v (List.map snd o).
Proof.
  induction o as [|[k' v'] o IH]; simpl; [discriminate|].
  destruct (jsstring_eqb k' k); [intros [= ->]; by left | intros H; right; auto].
Qed.

Lemma labels_are_texts :
  Forall (fun l => truthy l = true /\ ~ In 95 l) (List.map snd EVENT_LABELS).
Proof.
  repeat (constructor; [split; [reflexivity | vm_compute; intuition discriminate]|]).
  constructor.
Qed.

Lemma replace_unit_gone (c d : N) (s : jsstring) :
  c <> d -> ~ In c (replace_unit c d s).
Proof.
  intros Hcd H. unfold replace_unit in H. apply in_map_iff in H as [x [Hx _]].
  destruct (x =? c) eqn:E; [congruence|]. apply N.eqb_neq in E. congruence.
Qed.

Lemma partial_match_text (event : jsstring) :
  event <> [] ->
  truthy (partial_match toLowerCase event) = true
  /\ ~ In 95 (partial_match toLowerCase event).
Proof.
  intros He. unfold partial_match.
  destruct (find _ EVENT_LABELS) as [kl|] eqn:E.
  - apply find_some in E as [Hin _].
    pose proof labels_are_texts as Hall. rewrite Forall_forall in Hall.
    apply Hall, list_elem_of_In, in_map_iff. by exists kl.
  - split; [by destruct event | by apply replace_unit_gone].
Qed.

(** X15: for an event name that is not empty, [getEventLabel] never
    returns the empty text, and a text it returns holds no underscore; so
    the expanded stage shows its default label only when the event is
    missing or empty.  Each of the ten names of the table gets its own
    label, whatever the platform. *)
Theorem event_label_is_never_blank (event : jsstring) :
  (event <> [] ->
   match getEventLabel toLowerCase inherited (Some event) with
   | Text l => l <> [] /\ ~ In 95 l
   | Inherited name => name = event /\ inherited event = true
   end
   /\ runningLabel toLowerCase inherited (Some event)
      = getEventLabel toLowerCase inherited (Some event))
  /\ runningLabel toLowerCase inherited None = Text (js "처리 중")
  /\ runningLabel toLowerCase inherited (Some []) = Text (js "처리 중")
  /\ Forall (fun kl => getEventLabel toLowerCase inherited (Some (fst kl))
                       = Text (snd kl)) EVENT_LABELS.
Proof.
  split; [|split; [reflexivity|split; [reflexivity|]]].
  - intros He.
    assert (Htext : forall l, truthy l = true /\ ~ In 95 l -> l <> [] /\ ~ In 95 l).
    { intros l [Ht Hn]. split; [by destruct l|exact Hn]. }
    pose proof (partial_match_text event He) as Hp.
    pose proof labels_are_texts as Hall. rewrite Forall_forall in Hall.
    unfold runningLabel, getEventLabel.
    destruct event as [|c event]; [done|]. cbn [truthy negb].
    destruct (own (c :: event) EVENT_LABELS) as [l|] eqn:Eo.
    + apply own_In, list_elem_of_In, Hall in Eo. destruct Eo as [Ht Hn].
      rewrite Ht. split; [by apply Htext|]. by rewrite Ht.
    + destruct (inherited (c :: event)) eqn:Ei; [done|].
      destruct Hp as [Ht Hn]. split; [by apply Htext|]. by rewrite Ht.
  - repeat (constructor; [reflexivity|]). constructor.
Qed.

End EventLabels.

Lemma event_label_is_never_blank_witness :
  Stages.getEventLabel Picture.ascii_lower Picture.no_prototype
    (Some (js "Rephrase_Stage_Start")) = Stages.Text (js "시작")
  /\ Stages.getEventLabel Picture.ascii_lower Picture.no_prototype
       (Some (js "queue_updated")) = Stages.Text (js "queue updated").
Proof.
  destruct (event_label_is_never_blank Picture.ascii_lower Picture.no_prototype
              (js "Rephrase_Stage_Start")) as [H _].
  destruct (H ltac:(discriminate)) as [_ <-].
  destruct (event_label_is_never_blank Picture.ascii_lower Picture.no_prototype
              (js "queue_updated")) as [H' _].
  destruct (H' ltac:(discriminate)) as [_ <-].
  split; reflexivity.
Defined.

(** ** The name of the downloaded report *)
Section DownloadName.
Import Types JSLib Download Notions.

Lemma closes_iff (r : jsstring) : closes r = true <-> In 41 r.
Proof.
  induction r as [|c r IH]; simpl; [split; [discriminate|tauto]|].
  rewrite orb_true_iff, IH, N.eqb_eq. split; intros [H|H]; auto.
Qed.

Lemma codeMatch_skip (before s : jsstring) :
  ~ In 40 before -> codeMatch (before ++ s) = codeMatch s.
Proof.
  induction before as [|c before IH]; intros Hn; [reflexivity|].
  assert (Hc : c <> 40) by (intros ->; apply Hn; by left).
  change (codeMatch ((c :: before) ++ s))
    with (match code_at (c :: before ++ s) with
          | Some code => Some code
          | None => codeMatch (before ++ s)
          end).
  assert (Hat : code_at (c :: before ++ s) = None).
  { unfold code_at. destruct c as [|q]; [reflexivity|].
    do 6 (destruct q as [q|q|]; try reflexivity). congruence. }
  rewrite Hat. apply IH. intros H. apply Hn. by right.
Qed.

Lemma code_at_hit (code after : jsstring) :
  length code = 6%nat -> forallb is_digit code = true -> In 41 after ->
  code_at (40 :: code ++ after) = Some code.
Proof.
  intros Hl Hd Ha. unfold code_at.
  rewrite take_app_length' by (by symmetry).
  rewrite drop_app_length' by (by symmetry).
  rewrite Hl, Hd. apply closes_iff in Ha. rewrite Ha. reflexivity.
Qed.

Lemma codeMatch_digits (s code : jsstring) :
  codeMatch s = Some code -> length code = 6%nat /\ forallb is_digit code = true.
Proof.
  induction s as [|c s IH].
  - simpl. discriminate.
  - change (codeMatch (c :: s))
      with (match code_at (c :: s) with
            | Some code => Some code
            | None => codeMatch s
            end).
    destruct (code_at (c :: s)) as [code'|] eqn:E; [|exact IH].
    intros [= <-]. unfold code_at in E.
    destruct c as [|q]; [discriminate|].
    do 6 (destruct q as [q|q|]; try discriminate).
    destruct (length (take 6 s) =? 6)%nat eqn:El; [|discriminate].
    destruct (forallb is_digit (take 6 s)) eqn:Ed; [|discriminate].
    destruct (closes (drop 6 s)); [|discriminate].
    injection E as <-. apply Nat.eqb_eq in El. by split.
Qed.

Lemma date_of_iso (d t : jsstring) : ~ In 84 d -> date_of (d ++ 84 :: t) = d.
Proof. intros H. unfold date_of. by rewrite split_app_sep. Qed.

(** X16: when the main topic of a report carries a six-digit stock code in
    parentheses (the first parenthesis of the topic opens it, a closing
    one follows), the file is saved as <date>_<code>_리서치리포트.md, the
    date being the clock's ISO text up to its [T], and holds the report
    content unchanged. *)
Theorem download_is_named_by_stock_code (now day time : jsstring)
    (result : ResearchResult) (report : Report) (before code after : jsstring) :
  Types.report result = Some report ->
  report_content report <> [] ->
  main_topic report = before ++ 40 :: code ++ after ->
  ~ In 40 before ->
  length code = 6%nat -> forallb is_digit code = true ->
  In 41 after ->
  now = day ++ 84 :: time -> ~ In 84 day ->
  handleDownload now result
  = Some {| download := day ++ js "_" ++ code ++ js "_리서치리포트.md";
            blob := report_content report |}.
Proof.
  intros Hr Hc Ht Hb Hl Hd Ha Hn Hday. unfold handleDownload. rewrite Hr.
  destruct (report_content report) as [|x content] eqn:E; [done|]. simpl.
  rewrite Hn, date_of_iso by exact Hday.
  unfold topicName. rewrite Ht.
  assert (Htruthy : truthy (before ++ 40 :: code ++ after) = true)
    by (by destruct before).
  rewrite Htruthy, codeMatch_skip by exact Hb.
  change (codeMatch (40 :: code ++ after))
    with (match code_at (40 :: code ++ after) with
          | Some c => Some c
          | None => codeMatch (code ++ after)
          end).
  by rewrite code_at_hit.
Qed.

Lemma download_is_named_by_stock_code_witness :
  handleDownload (js "2026-01-20T09:05:00.000Z")
    {| report := Some {| report_content := js "# NAVER";
                         executive_summary := [];
                         main_topic := js "네이버 (035420.KS) 전망";
                         research_objective := [];
                         generated_at := [] |};
       statistics := None |}
  = Some {| download := js "2026-01-20_035420_리서치리포트.md";
            blob := js "# NAVER" |}.
Proof.
  refine (download_is_named_by_stock_code
            (js "2026-01-20T09:05:00.000Z") (js "2026-01-20") (js "09:05:00.000Z")
            {| report := Some {| report_content := js "# NAVER";
                                 executive_summary := [];
                                 main_topic := js "네이버 (035420.KS) 전망";
                                 research_objective := [];
                                 generated_at := [] |};
               statistics := None |}
            {| report_content := js "# NAVER";
               executive_summary := [];
               main_topic := js "네이버 (035420.KS) 전망";
               research_objective := [];
               generated_at := [] |}
            (js "네이버 ") (js "035420") (js ".KS) 전망")
            eq_refl _ eq_refl _ eq_refl eq_refl _ eq_refl _);
    vm_compute; intuition discriminate.
Defined.

Lemma squash_safe (in_run : bool) (s : jsstring) :
  forallb kept s = true -> forallb name_safe (squash in_run s) = true.
Proof.
  revert in_run. induction s as [|c s IH]; intros in_run H; [reflexivity|].
  simpl in H. apply andb_true_iff in H as [Hc Hs]. simpl.
  destruct (is_space c) eqn:E.
  - destruct in_run; [by apply IH|]. simpl. rewrite IH by exact Hs. reflexivity.
  - simpl. rewrite IH by exact Hs. unfold kept in Hc. rewrite E in Hc.
    unfold name_safe. rewrite orb_false_r in Hc.
    destruct (is_word c); [reflexivity|]. simpl in *. by rewrite Hc.
Qed.

Lemma squash_no_space (in_run : bool) (s : jsstring) :
  forallb (fun c => negb (is_space c)) s = true -> squash in_run s = s.
Proof.
  revert in_run. induction s as [|c s IH]; intros in_run H; [reflexivity|].
  simpl in H. apply andb_true_iff in H as [Hc Hs]. simpl.
  destruct (is_space c); [discriminate|]. by rewrite IH.
Qed.

Lemma forallb_filter_id {A : Type} (f : A -> bool) (l : list A) :
  forallb f l = true -> List.filter f l = l.
Proof.
  induction l as [|x l IH]; [reflexivity|]. simpl. intros H.
  apply andb_true_iff in H as [Hx Hl]. rewrite Hx. by rewrite IH.
Qed.

Lemma forallb_take {A : Type} (f : A -> bool) (n : nat) (l : list A) :
  forallb f l = true -> forallb f (take n l) = true.
Proof.
  revert n. induction l as [|x l IH]; intros n H; [by destruct n|].
  destruct n as [|n]; [reflexivity|]. simpl in *.
  apply andb_true_iff in H as [Hx Hl]. by rewrite Hx, IH.
Qed.

Lemma forallb_imp {A : Type} (f g : A -> bool) (l : list A) :
  (forall x, f x = true -> g x = true) -> forallb f l = true -> forallb g l = true.
Proof.
  intros Hfg. induction l as [|x l IH]; [reflexivity|]. simpl. intros H.
  apply andb_true_iff in H as [Hx Hl]. by rewrite Hfg, IH.
Qed.

Lemma name_safe_facts (c : N) :
  name_safe c = true -> kept c = true /\ is_space c = false.
Proof.
  unfold name_safe, kept. intros H. split.
  - destruct (is_word c); [reflexivity|]. simpl in *. rewrite H. apply orb_true_r.
  - destruct (is_space c) eqn:E; [|reflexivity]. exfalso.
    unfold is_space, is_white_space, is_line_terminator in E.
    unfold is_word, is_digit, is_hangul in H.
    repeat match type of E with
           | context [?a =? ?b] => destruct (N.eqb_spec a b); [subst; vm_compute in H; discriminate|]
           end.
    simpl in E. rewrite !orb_false_r in E.
    apply andb_true_iff in E as [E1 E2].
    apply N.leb_le in E1. apply N.leb_le in E2.
    repeat match type of H with
           | context [?a <=? ?b] => destruct (N.leb_spec a b)
           | context [?a =? ?b] => destruct (N.eqb_spec a b)
           end; simpl in H; try discriminate; lia.
Qed.

Lemma cleaned_safe (t : jsstring) :
  (length (cleaned t) <= 30)%nat /\ forallb name_safe (cleaned t) = true.
Proof.
  unfold cleaned. split; [rewrite length_take; lia|].
  apply forallb_take, squash_safe. apply forallb_forall.
  intros c Hc. by apply filter_In in Hc as [_ Hc].
Qed.

(** X17: the topic part of the download name is always safe for a file
    name: at most 30 code units, each a word character or a Hangul
    syllable, whatever the main topic of the report (a stock code when the
    topic carries one, else the topic with other characters dropped and
    white space turned into underscores).  Cleaning a cleaned name changes
    nothing. *)
Theorem download_topic_is_name_safe (report : Report) (t : jsstring) :
  (length (topicName report) <= 30)%nat
  /\ forallb name_safe (topicName report) = true
  /\ cleaned (cleaned t) = cleaned t.
Proof.
  split; [|split].
  - unfold topicName. destruct (codeMatch _) as [code|] eqn:E.
    + apply codeMatch_digits in E as [-> _]. lia.
    + apply cleaned_safe.
  - unfold topicName. destruct (codeMatch _) as [code|] eqn:E.
    + apply codeMatch_digits in E as [_ Hd].
      apply (forallb_imp is_digit); [|exact Hd].
      intros c Hc. unfold name_safe, is_word. rewrite Hc.
      by rewrite !orb_true_r.
    + apply cleaned_safe.
  - destruct (cleaned_safe t) as [Hlen Hsafe].
    unfold cleaned at 1.
    rewrite forallb_filter_id
      by (apply (forallb_imp name_safe); [intros c Hc; by apply name_safe_facts|exact Hsafe]).
    rewrite squash_no_space
      by (apply (forallb_imp name_safe);
          [intros c Hc; apply name_safe_facts in Hc as [_ ->]; reflexivity|exact Hsafe]).
    by apply take_ge.
Qed.

End DownloadName.

(** ** The markdown renderer, further *)
Section MarkdownMore.
Import ReportViewer Frames Fences Notions.

Lemma callback_prepend front st line i :
  callback (prepend front st) line i = prepend front (callback st line i).
Proof.
  unfold callback, push, prepend. simpl.
  repeat match goal with
         | |- context [if ?b then _ else _] => destruct b
         | |- context [match ?o with Some _ => _ | None => _ end] => destruct o
         end; simpl; by rewrite ?app_assoc.
Qed.

Lemma forEach_prepend front lines i st :
  forEach lines i (prepend front st) = prepend front (forEach lines i st).
Proof.
  revert i st. induction lines as [|l lines IH]; intros i st; [reflexivity|].
  simpl. by rewrite callback_prepend, IH.
Qed.

(** What the scan does next depends on the block state alone, not on the
    elements or the language recorded so far. *)
Lemma callback_same_block st1 st2 line i :
  inCodeBlock st1 = inCodeBlock st2 -> codeContent st1 = codeContent st2 ->
  exists e,
    elements (callback st1 line i) = elements st1 ++ e
    /\ elements (callback st2 line i) = elements st2 ++ e
    /\ inCodeBlock (callback st1 line i) = inCodeBlock (callback st2 line i)
    /\ codeContent (callback st1 line i) = codeContent (callback st2 line i)
    /\ (e = [] \/ exists x, e = [x] /\ key_of x = i).
Proof.
  intros Hb Hc. unfold callback, push. rewrite Hb, Hc.
  repeat match goal with
         | |- context [if ?b then _ else _] => destruct b
         | |- context [match ?o with Some _ => _ | None => _ end] => destruct o
         end; simpl;
    first [ exists []; rewrite !app_nil_r; by repeat split; auto
          | eexists [_]; repeat split; right; eexists; split; reflexivity ].
Qed.

Lemma forEach_same_block lines i st1 st2 :
  inCodeBlock st1 = inCodeBlock st2 -> codeContent st1 = codeContent st2 ->
  exists tail,
    elements (forEach lines i st1) = elements st1 ++ tail
    /\ elements (forEach lines i st2) = elements st2 ++ tail
    /\ sublist (List.map key_of tail) (seq i (length lines)).
Proof.
  revert i st1 st2. induction lines as [|l lines IH]; intros i st1 st2 Hb Hc.
  - exists []. simpl. by rewrite !app_nil_r.
  - destruct (callback_same_block st1 st2 l i Hb Hc) as (e & H1 & H2 & Hb' & Hc' & He).
    destruct (IH (S i) _ _ Hb' Hc') as (tail & T1 & T2 & Hs).
    exists (e ++ tail). simpl. rewrite T1, T2, H1, H2, <- !app_assoc.
    split; [reflexivity|]. split; [reflexivity|].
    destruct He as [-> | [x [-> Hx]]]; simpl.
    + by apply sublist_cons.
    + rewrite Hx. by apply sublist_skip.
Qed.

(** X18: the keys of the rendered elements are line indexes in increasing
    order: the list of keys is a sub-list of 0, 1, ..., n-1 for a report of
    n lines.  So no two elements share a key, and there are at most as
    many elements as lines. *)
Theorem element_keys_increase (content : jsstring) :
  let keys := List.map key_of (MarkdownRenderer content) in
  sublist keys (seq 0 (length (split 10 content)))
  /\ NoDup keys
  /\ (length (MarkdownRenderer content) <= length (split 10 content))%nat.
Proof.
  intros keys.
  assert (H : sublist keys (seq 0 (length (split 10 content)))).
  { subst keys. unfold MarkdownRenderer.
    destruct (forEach_same_block (split 10 content) 0 initial initial eq_refl eq_refl)
      as (tail & -> & _ & Hs). exact Hs. }
  split; [exact H|]. split.
  - exact (sublist_NoDup _ _ (NoDup_seq _ _) H).
  - apply sublist_length in H. subst keys.
    by rewrite length_map, length_seq in H.
Qed.

Lemma callback_block st line i :
  inCodeBlock st = false -> is_fence line = false ->
  callback st line i = push (block_of line i) st.
Proof.
  unfold is_fence. intros Hb Hf. unfold callback, block_of. rewrite Hf, Hb.
  repeat match goal with
         | |- context [if ?b then _ else _] => destruct b
         | |- context [match ?o with Some _ => _ | None => _ end] => destruct o
         end; reflexivity.
Qed.

Lemma forEach_blocks lines i st :
  inCodeBlock st = false -> fences lines = 0%nat ->
  forEach lines i st
  = {| elements := elements st ++ blocks_of lines i; inCodeBlock := false;
       codeContent := codeContent st; codeLanguage := codeLanguage st |}.
Proof.
  revert i st. induction lines as [|l lines IH]; intros i st Hb Hf.
  - simpl. rewrite app_nil_r. destruct st; simpl in *. by subst.
  - unfold fences in Hf. simpl in Hf.
    destruct (is_fence l) eqn:El; [discriminate|].
    simpl. rewrite callback_block by done.
    rewrite IH by done. simpl. by rewrite <- app_assoc.
Qed.

Lemma blocks_of_keys lines i :
  List.map key_of (blocks_of lines i) = seq i (length lines).
Proof.
  revert i. induction lines as [|l lines IH]; intros i; [reflexivity|].
  simpl. rewrite IH. f_equal. unfold block_of.
  repeat match goal with
         | |- context [if ?b then _ else _] => destruct b
         | |- context [match ?o with Some _ => _ | None => _ end] => destruct o
         end; reflexivity.
Qed.

(** X19: a report without any fence line is rendered line by line: each
    line gives exactly one element, keyed by its index, and that element
    depends on this line only. *)
Theorem one_element_per_line (content : jsstring) :
  fences (split 10 content) = 0%nat ->
  MarkdownRenderer content = blocks_of (split 10 content) 0
  /\ length (MarkdownRenderer content) = length (split 10 content)
  /\ List.map key_of (MarkdownRenderer content) = seq 0 (length (split 10 content)).
Proof.
  intros H. unfold MarkdownRenderer.
  rewrite forEach_blocks by done. simpl.
  pose proof (blocks_of_keys (split 10 content) 0) as Hk.
  split; [reflexivity|]. split; [|exact Hk].
  apply (f_equal (@length nat)) in Hk. by rewrite length_map, length_seq in Hk.
Qed.

Lemma one_element_per_line_witness :
  MarkdownRenderer (js "## Outlook" ++ [10] ++ js "- **buy**" ++ [10] ++ [])
  = [h2 0 (js "Outlook"); li 1 (js "<strong>buy</strong>"); br 2].
Proof.
  apply (one_element_per_line (js "## Outlook" ++ [10] ++ js "- **buy**" ++ [10] ++ [])).
  reflexivity.
Defined.

Lemma fences_none (lines : list jsstring) :
  fences lines = 0%nat -> Forall (fun l => startsWith l fence = false) lines.
Proof.
  unfold fences. induction lines as [|l lines IH]; intros H; [constructor|].
  simpl in H. destruct (is_fence l) eqn:E; [discriminate|].
  constructor; [exact E | by apply IH].
Qed.

(** X20: a code block that is opened and closed gives one [pre] element:
    keyed by the index of the closing fence, holding the lines between the
    two fences joined by line feeds, untouched by inline markdown.  The
    lines before the block and the lines after it are rendered as they
    would be without it (those after it with their own indexes). *)
Theorem closed_block_is_one_pre (content : jsstring)
    (before code after : list jsstring) (opening closing : jsstring) :
  split 10 content = before ++ opening :: code ++ closing :: after ->
  inCodeBlock (forEach before 0 initial) = false ->
  is_fence opening = true -> is_fence closing = true ->
  fences code = 0%nat ->
  MarkdownRenderer content
  = elements (forEach before 0 initial)
    ++ pre (length before + S (length code)) (join [10] code)
    :: elements (forEach after (length before + S (S (length code))) initial).
Proof.
  intros Hsplit Hout Hopen Hclose Hcode. unfold is_fence in *.
  assert (Hset : codeContent (forEach before 0 initial) = []).
  { by apply (forEach_settled before 0 initial). }
  unfold MarkdownRenderer. rewrite Hsplit, forEach_app. cbn [forEach].
  rewrite forEach_app. cbn [forEach].
  set (st1 := forEach before 0 initial) in *.
  set (i := (0 + length before)%nat).
  assert (H2 : callback st1 opening i
               = {| elements := elements st1; inCodeBlock := true;
                    codeContent := []; codeLanguage := slice 3 opening |}).
  { unfold callback. by rewrite Hopen, Hout, Hset. }
  rewrite H2.
  rewrite (forEach_inside code) by (first [reflexivity | by apply fences_none]).
  cbn [elements codeContent codeLanguage app].
  set (j := (S i + length code)%nat).
  assert (H4 : callback {| elements := elements st1; inCodeBlock := true;
                           codeContent := code; codeLanguage := slice 3 opening |}
                        closing j
               = {| elements := elements st1 ++ [pre j (join [10] code)];
                    inCodeBlock := false; codeContent := [];
                    codeLanguage := slice 3 opening |}).
  { unfold callback. by rewrite Hclose. }
  rewrite H4.
  destruct (forEach_same_block after (S j)
              {| elements := elements st1 ++ [pre j (join [10] code)];
                 inCodeBlock := false; codeContent := [];
                 codeLanguage := slice 3 opening |}
              initial eq_refl eq_refl) as (tail & -> & T2 & _).
  cbn [elements app] in *.
  replace (length before + S (S (length code)))%nat with (S j) by (subst j i; lia).
  replace (length before + S (length code))%nat with j by (subst j i; lia).
  rewrite T2, <- app_assoc. reflexivity.
Qed.

Lemma closed_block_is_one_pre_witness :
  MarkdownRenderer (js "Run:" ++ [10] ++ js "```sh" ++ [10] ++ js "a **b**"
                    ++ [10] ++ js "```" ++ [10] ++ js "*done*")
  = [p 0 (js "Run:"); pre 3 (js "a **b**"); p 4 (js "<em>done</em>")].
Proof.
  apply (closed_block_is_one_pre _ [js "Run:"] [js "a **b**"] [js "*done*"]
           (js "```sh") (js "```")); reflexivity.
Defined.

Lemma block_of_not_pre line i : is_pre (block_of line i) = false.
Proof.
  unfold block_of.
  repeat match goal with
         | |- context [if ?b then _ else _] => destruct b
         | |- context [match ?o with Some _ => _ | None => _ end] => destruct o
         end; reflexivity.
Qed.

Lemma code_blocks_snoc els e :
  code_blocks (els ++ [e]) = (code_blocks els + if is_pre e then 1 else 0)%nat.
Proof.
  unfold code_blocks. rewrite List.filter_app, length_app. simpl.
  by destruct (is_pre e).
Qed.

Lemma fences_balance lines i st :
  (2 * code_blocks (elements (forEach lines i st))
   + (if inCodeBlock (forEach lines i st) then 1 else 0)
   = 2 * code_blocks (elements st) + (if inCodeBlock st then 1 else 0)
     + fences lines)%nat.
Proof.
  revert i st. induction lines as [|l lines IH]; intros i st.
  - unfold fences. simpl. lia.
  - cbn [forEach]. rewrite IH. unfold fences. cbn [List.filter].
    destruct (is_fence l) eqn:El.
    + unfold callback. unfold is_fence in El. rewrite El.
      destruct (inCodeBlock st); cbn [elements inCodeBlock length];
        rewrite ?code_blocks_snoc; simpl; lia.
    + destruct (inCodeBlock st) eqn:Eb.
      * unfold callback. unfold is_fence in El. rewrite El, Eb. simpl. lia.
      * rewrite callback_block by done. unfold push. cbn [elements inCodeBlock].
        rewrite code_blocks_snoc, block_of_not_pre, Eb. lia.
Qed.

(** X21: fences pair up: the number of fence lines of a report is twice
    the number of [pre] elements rendered, plus one when the scan ends
    inside a block, which is the case exactly when the number of fence
    lines is odd. *)
Theorem fences_pair_up (content : jsstring) :
  let final := forEach (split 10 content) 0 initial in
  fences (split 10 content)
  = (2 * code_blocks (MarkdownRenderer content)
     + if inCodeBlock final then 1 else 0)%nat
  /\ inCodeBlock final = Nat.odd (fences (split 10 content)).
Proof.
  intros final.
  pose proof (fences_balance (split 10 content) 0 initial) as H.
  fold final in H. change (elements final) with (MarkdownRenderer content) in H.
  simpl in H. split; [lia|].
  destruct (inCodeBlock final).
  - replace (fences (split 10 content))
      with (1 + 2 * code_blocks (MarkdownRenderer content))%nat by lia.
    by rewrite Nat.odd_add_mul_2.
  - replace (fences (split 10 content))
      with (0 + 2 * code_blocks (MarkdownRenderer content))%nat by lia.
    by rewrite Nat.odd_add_mul_2.
Qed.

(** *** Inline markdown *)

Lemma startsWith_miss (s d : jsstring) (a : N) :
  match s with c :: _ => c <> a | [] => True end -> startsWith s (a :: d) = false.
Proof.
  destruct s as [|c s]; [reflexivity|]. simpl. intros H.
  apply N.eqb_neq in H. by rewrite H.
Qed.

Lemma startsWith_nil (s : jsstring) : startsWith s [] = true.
Proof. by destruct s. Qed.

Lemma startsWith_app (d b : jsstring) : startsWith (d ++ b) d = true.
Proof.
  induction d as [|c d IH]; [by destruct b|]. simpl. by rewrite N.eqb_refl, IH.
Qed.

Lemma match_delimited_miss (s d : jsstring) (a : N) :
  match s with c :: _ => c <> a | [] => True end ->
  match_delimited (a :: d) s = None.
Proof. intros H. unfold match_delimited. by rewrite startsWith_miss. Qed.

Lemma replace_delimited_nil d left right : replace_delimited d left right [] = [].
Proof.
  rewrite replace_delimited_step. unfold match_delimited.
  destruct (startsWith [] d); [|reflexivity]. by rewrite drop_nil.
Qed.

(** Text without the first character of the delimiter passes through. *)
Lemma replace_pass (a : N) (d left right front s : jsstring) :
  ~ In a front ->
  replace_delimited (a :: d) left right (front ++ s)
  = front ++ replace_delimited (a :: d) left right s.
Proof.
  induction front as [|c front IH]; intros H; [reflexivity|].
  rewrite <- app_comm_cons, replace_delimited_step.
  rewrite match_delimited_miss by (intros ->; apply H; by left).
  rewrite IH; [reflexivity|]. intros Hin. apply H. by right.
Qed.

Lemma replace_absent (a : N) (d left right s : jsstring) :
  ~ In a s -> replace_delimited (a :: d) left right s = s.
Proof.
  intros H. rewrite <- (app_nil_r s) at 1.
  by rewrite replace_pass, replace_delimited_nil, app_nil_r.
Qed.

Lemma lazy_until_hit (a : N) (d g b : jsstring) :
  ~ In a g -> one_line g ->
  lazy_until (a :: d) (g ++ (a :: d) ++ b) = Some (g, b).
Proof.
  induction g as [|c g IH]; intros Hn Hl.
  - cbn [app]. change (a :: d ++ b) with ((a :: d) ++ b).
    destruct ((a :: d) ++ b) as [|x y] eqn:E; [discriminate|].
    cbn [lazy_until]. rewrite <- E, startsWith_app.
    by rewrite drop_app_length.
  - apply Forall_cons in Hl as [Hc Hl].
    rewrite <- app_comm_cons. cbn [lazy_until].
    rewrite startsWith_miss by (intros ->; apply Hn; by left).
    rewrite Hc, IH; [reflexivity | | exact Hl].
    intros Hin. apply Hn. by right.
Qed.

Lemma match_delimited_hit (a : N) (d g b : jsstring) :
  g <> [] -> ~ In a g -> one_line g ->
  match_delimited (a :: d) ((a :: d) ++ g ++ (a :: d) ++ b) = Some (g, b).
Proof.
  intros Hg Hn Hl. unfold match_delimited.
  rewrite startsWith_app, drop_app_length.
  destruct g as [|c g]; [done|].
  apply Forall_cons in Hl as [Hc Hl]. rewrite <- app_comm_cons, Hc.
  rewrite lazy_until_hit; [reflexivity | | exact Hl].
  intros Hin. apply Hn. by right.
Qed.

(** One marked segment between texts free of the marker. *)
Lemma replace_segment (a : N) (d left right front g back : jsstring) :
  ~ In a front -> ~ In a g -> ~ In a back -> g <> [] -> one_line g ->
  replace_delimited (a :: d) left right (front ++ (a :: d) ++ g ++ (a :: d) ++ back)
  = front ++ left ++ g ++ right ++ back.
Proof.
  intros Hf Hg Hb Hne Hl.
  rewrite replace_pass by exact Hf.
  rewrite replace_delimited_step, match_delimited_hit by done.
  by rewrite replace_absent.
Qed.

(** The bold pass leaves single stars alone. *)
Lemma bold_skips_single_stars (left right front g back : jsstring) :
  ~ In 42 front -> ~ In 42 g -> ~ In 42 back -> g <> [] ->
  replace_delimited [42; 42] left right (front ++ [42] ++ g ++ [42] ++ back)
  = front ++ [42] ++ g ++ [42] ++ back.
Proof.
  intros Hf Hg Hb Hne.
  assert (Hstar : forall t, match t with c :: _ => c <> 42 | [] => True end ->
                            replace_delimited [42; 42] left right (42 :: t)
                            = 42 :: replace_delimited [42; 42] left right t).
  { intros t Ht. rewrite replace_delimited_step.
    unfold match_delimited. cbn [startsWith]. rewrite N.eqb_refl.
    rewrite startsWith_miss by exact Ht. reflexivity. }
  rewrite replace_pass by exact Hf. cbn [app]. rewrite Hstar.
  - rewrite replace_pass by exact Hg. rewrite Hstar.
    + by rewrite replace_absent.
    + destruct back as [|c back]; [done|]. intros ->. apply Hb. by left.
  - destruct g as [|c g]; [done|]. simpl. intros ->. apply Hg. by left.
Qed.

(** X22: text that holds neither a star nor a backquote passes through
    [renderInlineMarkdown] unchanged.  Nothing is escaped: markup that
    stands in a report line reaches the [innerHTML] of the element as it
    is. *)
Theorem plain_text_is_not_changed (text : jsstring) :
  plain text -> renderInlineMarkdown text = text.
Proof.
  intros [Hs Hq]. unfold renderInlineMarkdown. cbv zeta.
  change (js "**") with [42; 42]. change (js "*") with [42].
  change (js "`") with [96].
  rewrite (replace_absent 42 [42]) by exact Hs.
  rewrite (replace_absent 42 []) by exact Hs.
  by rewrite (replace_absent 96 []).
Qed.

Lemma plain_text_is_not_changed_witness :
  renderInlineMarkdown (js "<img src=x onerror=alert(1)>")
  = js "<img src=x onerror=alert(1)>".
Proof.
  apply plain_text_is_not_changed. split; vm_compute; intuition discriminate.
Defined.

(** X23: a segment between two double stars becomes a [strong] element,
    one between two single stars an [em] element, one between two
    backquotes a [code] element; the segment itself and the text around it
    are kept as they are.  (The segment is not empty, on one line, and
    segment and surrounding text hold no star and no backquote.) *)
Theorem marked_segments (front g back : jsstring) :
  plain front -> plain g -> plain back -> g <> [] -> one_line g ->
  renderInlineMarkdown (front ++ js "**" ++ g ++ js "**" ++ back)
  = front ++ js "<strong>" ++ g ++ js "</strong>" ++ back
  /\ renderInlineMarkdown (front ++ js "*" ++ g ++ js "*" ++ back)
     = front ++ js "<em>" ++ g ++ js "</em>" ++ back
  /\ renderInlineMarkdown (front ++ js "`" ++ g ++ js "`" ++ back)
     = front ++ (js "<code class=" ++ [34]
                 ++ js "bg-gray-100 dark:bg-gray-900 px-1 rounded" ++ [34] ++ js ">")
        ++ g ++ js "</code>" ++ back.
Proof.
  intros [Hf1 Hf2] [Hg1 Hg2] [Hb1 Hb2] Hne Hl.
  unfold renderInlineMarkdown. cbv zeta.
  change (js "**") with [42; 42]. change (js "*") with [42].
  change (js "`") with [96].
  split; [|split].
  - rewrite (replace_segment 42 [42]) by done.
    rewrite (replace_absent 42 [])
      by (rewrite !in_app_iff; intros [H|[H|[H|[H|H]]]]; try done;
          revert H; vm_compute; intuition discriminate).
    rewrite (replace_absent 96 [])
      by (rewrite !in_app_iff; intros [H|[H|[H|[H|H]]]]; try done;
          revert H; vm_compute; intuition discriminate).
    reflexivity.
  - rewrite bold_skips_single_stars by done.
    rewrite (replace_segment 42 []) by done.
    rewrite (replace_absent 96 [])
      by (rewrite !in_app_iff; intros [H|[H|[H|[H|H]]]]; try done;
          revert H; vm_compute; intuition discriminate).
    reflexivity.
  - rewrite (replace_absent 42 [42])
      by (rewrite !in_app_iff; intros [H|[H|[H|[H|H]]]]; try done;
          revert H; vm_compute; intuition discriminate).
    rewrite (replace_absent 42 [])
      by (rewrite !in_app_iff; intros [H|[H|[H|[H|H]]]]; try done;
          revert H; vm_compute; intuition discriminate).
    by rewrite (replace_segment 96 []).
Qed.

Lemma marked_segments_witness :
  renderInlineMarkdown (js "Rating: **strong buy** now")
  = js "Rating: <strong>strong buy</strong> now".
Proof.
  apply (marked_segments (js "Rating: ") (js "strong buy") (js " now"));
    first [ discriminate
          | split; vm_compute; intuition discriminate
          | repeat constructor ].
Defined.

Lemma skip_digits_app (ds rest : jsstring) :
  forallb is_digit ds = true ->
  match rest with c :: _ => is_digit c = false | [] => True end ->
  skip_digits (ds ++ rest) = rest.
Proof.
  induction ds as [|c ds IH]; intros Hd Hr.
  - destruct rest as [|c rest]; [reflexivity|]. simpl. by rewrite Hr.
  - simpl in Hd. apply andb_true_iff in Hd as [Hc Hd]. simpl. rewrite Hc. by apply IH.
Qed.

Lemma greedy_dots_one_line (t : jsstring) : one_line t -> greedy_dots t = t.
Proof.
  induction t as [|c t IH]; intros H; [reflexivity|].
  apply Forall_cons in H as [Hc Ht]. simpl. by rewrite Hc, IH.
Qed.

Lemma numberedMatch_item (ds t : jsstring) :
  ds <> [] -> forallb is_digit ds = true -> t <> [] -> one_line t ->
  numberedMatch (ds ++ js ". " ++ t) = Some t.
Proof.
  intros Hne Hd Ht Hl. change (js ". ") with [46; 32].
  destruct ds as [|c ds]; [done|].
  pose proof Hd as Hd'. simpl in Hd'. apply andb_true_iff in Hd' as [Hc _].
  unfold numberedMatch. rewrite <- app_comm_cons, Hc, app_comm_cons.
  rewrite skip_digits_app by done. cbn [app].
  change (is_space 32) with true. cbv iota.
  rewrite greedy_dots_one_line by exact Hl. by destruct t.
Qed.

(** X24: how a line outside a code block is classified.  [# ], [## ] and
    [### ] give a heading of level 1, 2 and 3 whose text is the rest of
    the line, taken as it is: inline markdown is not applied to headings.
    [- ] and [* ] give a list item, and digits followed by a dot and a
    space give a numbered item, both with inline markdown applied to the
    rest of the line; the number itself is dropped. *)
Theorem line_classification (st : Scan) (i : nat) (t ds : jsstring) :
  inCodeBlock st = false ->
  callback st (js "# " ++ t) i = push (h1 i t) st
  /\ callback st (js "## " ++ t) i = push (h2 i t) st
  /\ callback st (js "### " ++ t) i = push (h3 i t) st
  /\ callback st (js "- " ++ t) i = push (li i (renderInlineMarkdown t)) st
  /\ callback st (js "* " ++ t) i = push (li i (renderInlineMarkdown t)) st
  /\ (ds <> [] -> forallb is_digit ds = true -> t <> [] -> one_line t ->
      callback st (ds ++ js ". " ++ t) i
      = push (li_decimal i (renderInlineMarkdown t)) st).
Proof.
  intros Hb.
  do 5 (split;
        [rewrite callback_block by done; f_equal; unfold block_of;
         change (js "# ") with [35; 32]; change (js "## ") with [35; 35; 32];
         change (js "### ") with [35; 35; 35; 32];
         change (js "- ") with [45; 32]; change (js "* ") with [42; 32];
         cbn -[renderInlineMarkdown numberedMatch trim];
         by rewrite ?startsWith_nil|]).
  intros Hne Hd Ht Hl.
  destruct ds as [|c ds]; [done|].
  pose proof Hd as Hd'. simpl in Hd'. apply andb_true_iff in Hd' as [Hc _].
  assert (Hfirst : forall a, is_digit a = false ->
                   forall d, startsWith ((c :: ds) ++ js ". " ++ t) (a :: d) = false).
  { intros a Ha d. apply startsWith_miss. simpl. intros ->. congruence. }
  rewrite callback_block; [|exact Hb|by apply Hfirst].
  unfold block_of.
  change (js "# ") with [35; 32]. change (js "## ") with [35; 35; 32].
  change (js "### ") with [35; 35; 35; 32].
  change (js "- ") with [45; 32]. change (js "* ") with [42; 32].
  rewrite !Hfirst by reflexivity. cbn [orb].
  by rewrite numberedMatch_item.
Qed.

Lemma line_classification_witness :
  MarkdownRenderer (js "12. watch **margins**")
  = [li_decimal 0 (js "watch <strong>margins</strong>")].
Proof.
  destruct (line_classification initial 0 (js "watch **margins**") (js "12") eq_refl)
    as (_ & _ & _ & _ & _ & H).
  unfold MarkdownRenderer. change (split 10 (js "12. watch **margins**"))
    with [js "12" ++ js ". " ++ js "watch **margins**"].
  cbn [forEach]. rewrite H; [reflexivity|discriminate|reflexivity|discriminate|].
  repeat constructor.
Defined.

End MarkdownMore.
